(** * job-job: the document-to-answer pipeline

    A shallow embedding of [config.py], [document_manager.py] and
    [job_job.py].  Python objects become records, mutation becomes explicit
    state passing over the pair (application object, world), and a call that
    can raise returns an [outcome].

    The world holds what the program keeps outside its own objects: the
    vector-store directory, the upload directory, the personal-context file,
    what was printed, and the requests sent to the remote completion
    service.  What the remote services and the document loaders answer is
    not decided by the program; it is read from an [Env], one per call.

    A character is a code point below 256.  Every call the source wraps in
    [try]/[except] has both of its outcomes in the model, and so have the
    [shutil.rmtree] and [os.remove] of [clear_vectorstore], which nothing
    guards.  The prompt templates ship with the application and are read as
    they are. *)

From Stdlib Require Import String Ascii List Arith Lia ZArith Bool.
From stdpp Require Import base strings list gmap pretty.
From Equations Require Import Equations.

(** ** Exceptions and outcomes *)

Inductive exn : Type :=
| ValueError (msg : string)
| FileNotFoundError (msg : string)
| OSError (msg : string)
| RuntimeError (msg : string).

(** [str(e)], as the f-strings of the source print it. *)
Definition exn_str (e : exn) : string :=
  match e with
  | ValueError m | FileNotFoundError m | OSError m | RuntimeError m => m
  end.

Inductive outcome (A : Type) : Type :=
| Returned (a : A)
| Raised (e : exn).
Arguments Returned {A} a.
Arguments Raised {A} e.

Definition is_returned {A} (o : outcome A) : bool :=
  match o with Returned _ => true | Raised _ => false end.

(** ** The Python string operations the source calls *)

Module Py.

Definition LF : ascii := ascii_of_nat 10.
Definition CR : ascii := ascii_of_nat 13.
Definition nl : string := String LF EmptyString.

(** [str.lower] on the ASCII range; other characters are left alone. *)
Definition lower_char (c : ascii) : ascii :=
  let n := nat_of_ascii c in
  if ((65 <=? n) && (n <=? 90))%nat then ascii_of_nat (n + 32) else c.

Fixpoint lower (s : string) : string :=
  match s with
  | EmptyString => EmptyString
  | String c s' => String (lower_char c) (lower s')
  end.

(** [str.isspace] on one character, which is what [str.strip()] removes:
    below 256 these are 9 to 13, 28 to 32, NEL (133) and the no-break space
    (160). *)
Definition is_space (c : ascii) : bool :=
  let n := nat_of_ascii c in
  (((9 <=? n) && (n <=? 13)) || ((28 <=? n) && (n <=? 32))
   || (n =? 133) || (n =? 160))%nat.

Fixpoint lstrip (s : string) : string :=
  match s with
  | EmptyString => EmptyString
  | String c s' => if is_space c then lstrip s' else s
  end.

Fixpoint rstrip (s : string) : string :=
  match s with
  | EmptyString => EmptyString
  | String c s' =>
      match rstrip s' with
      | EmptyString => if is_space c then EmptyString else String c EmptyString
      | r => String c r
      end
  end.

Definition strip (s : string) : string := rstrip (lstrip s).

(** [s.rfind(c)]: the highest index holding [c], or -1.  [i] is the index
    of the head of [s]. *)
Fixpoint rfind_from (c : ascii) (s : string) (i : Z) : Z :=
  match s with
  | EmptyString => (-1)%Z
  | String a s' =>
      let r := rfind_from c s' (i + 1)%Z in
      if (0 <=? r)%Z then r
      else if Ascii.eqb a c then i else (-1)%Z
  end.

Definition rfind (c : ascii) (s : string) : Z := rfind_from c s 0%Z.

(** The slices [p[:i]] and [p[i:]] for [0 <= i]. *)
Definition slice_to (p : string) (i : Z) : string :=
  String.substring 0 (Z.to_nat i) p.
Definition slice_from (p : string) (i : Z) : string :=
  String.substring (Z.to_nat i) (String.length p - Z.to_nat i) p.

(** The loop of [genericpath._splitext] that skips the leading dots of the
    file name: [Some] is the [return] inside the loop, [None] is falling
    out of it. *)
Fixpoint splitext_loop (p : string) (dotIndex filenameIndex : Z) (steps : nat)
  : option (string * string) :=
  match steps with
  | O => None
  | S steps' =>
      if negb (String.eqb (String.substring (Z.to_nat filenameIndex) 1 p) ".")
      then Some (slice_to p dotIndex, slice_from p dotIndex)
      else splitext_loop p dotIndex (filenameIndex + 1)%Z steps'
  end.

(** [os.path.splitext] of [posixpath]. *)
Definition splitext (p : string) : string * string :=
  let sepIndex := rfind "/" p in
  let dotIndex := rfind "." p in
  if (sepIndex <? dotIndex)%Z then
    let filenameIndex := (sepIndex + 1)%Z in
    match splitext_loop p dotIndex filenameIndex
            (Z.to_nat (dotIndex - filenameIndex)) with
    | Some r => r
    | None => (p, EmptyString)
    end
  else (p, EmptyString).

(** [os.path.basename] of [posixpath]. *)
Definition basename (p : string) : string :=
  slice_from p (rfind "/" p + 1)%Z.

(** What a text-mode [open(..., 'r')] hands to [read()]: universal
    newlines, that is, CR LF and a lone CR both arrive as LF. *)
Fixpoint universal_newlines (s : string) : string :=
  match s with
  | EmptyString => EmptyString
  | String c s' =>
      if Ascii.eqb c CR then
        match s' with
        | String d s'' =>
            if Ascii.eqb d LF then String LF (universal_newlines s'')
            else String LF (universal_newlines s')
        | EmptyString => String LF EmptyString
        end
      else String c (universal_newlines s')
  end.

(** [LF.join(lines)]. *)
Fixpoint join_lines (lines : list string) : string :=
  match lines with
  | [] => EmptyString
  | [l] => l
  | l :: rest => l +:+ nl +:+ join_lines rest
  end.

Fixpoint has_char (c : ascii) (s : string) : bool :=
  match s with
  | EmptyString => false
  | String a s' => Ascii.eqb a c || has_char c s'
  end.

End Py.

(** ** config.py *)

Module config.
Definition VECTOR_STORE_PATH : string := "context/vectorstore".
Definition UPLOAD_DIR : string := "context/uploads".
Definition PROMPT_DIR : string := "context/prompts".
Definition CHUNK_SIZE : nat := 1000.
Definition CHUNK_OVERLAP : nat := 200.
Definition CONTEXT_FILE_PATH : string := "context/background/personal_context.txt".
End config.

(** ** Documents and the text splitter *)

(** [langchain.schema.Document]: the text, a sequence of characters that the
    splitter slices by position, and the metadata dict. *)
Record Document : Type := {
  page_content : list ascii;
  metadata : gmap string string
}.

(** The parameters of [RecursiveCharacterTextSplitter(chunk_size,
    chunk_overlap, length_function=len)]; everything else is at its
    default.  The overlap of a configuration is smaller than its chunk
    size. *)
Record TextSplitter : Type := {
  chunk_size : nat;
  chunk_overlap : nat;
  overlap_lt_size : chunk_overlap < chunk_size
}.

Section Chunker.
Context {A : Type}.

(** The Chunker as section 4.1 of the spec words its contract, at the hard
    cut: a window of [chunk_size] characters that advances by
    [chunk_size - chunk_overlap], the last window taking what is left; the
    empty text gives no chunk.  It is the yardstick the splitter of the
    library, [split_text] below, is compared with. *)
Equations? window_split (sp : TextSplitter) (t : list A) : list (list A)
  by wf (length t) lt :=
  window_split sp [] := [];
  window_split sp (c :: t') with le_lt_dec (length (c :: t')) (chunk_size sp) := {
    | left _ := [c :: t'];
    | right _ :=
        take (chunk_size sp) (c :: t')
        :: window_split sp (drop (chunk_size sp - chunk_overlap sp) (c :: t')) }.
Proof.
  pose proof (overlap_lt_size sp). rewrite length_drop. simpl in *. lia.
Qed.

(** Concatenating chunks with the overlaps removed: every chunk but the
    first loses its first [k] characters. *)
Definition reconstruct (k : nat) (chunks : list (list A)) : list A :=
  match chunks with
  | [] => []
  | c :: cs => c ++ concat (map (drop k) cs)
  end.

End Chunker.

(** *** The splitter of the library

    Modelled from the spec: the Chunker of section 4.1, whose code is the
    text-splitter library and is not in the repository.  It prefers natural
    boundaries to a hard cut, the way
    [RecursiveCharacterTextSplitter.split_text] does for the configuration
    of [DocumentManager.__init__]: separators paragraph break, line break,
    space and the empty string, in that order; [keep_separator] and
    [strip_whitespace] set. *)

(** [str.strip()] on a sequence of characters. *)
Fixpoint lstrip_chars (t : list ascii) : list ascii :=
  match t with
  | [] => []
  | c :: t' => if Py.is_space c then lstrip_chars t' else t
  end.

Definition strip_chars (t : list ascii) : list ascii :=
  rev (lstrip_chars (rev (lstrip_chars t))).

Fixpoint starts_with (sep t : list ascii) : bool :=
  match sep, t with
  | [], _ => true
  | _ :: _, [] => false
  | a :: sep', c :: t' => Ascii.eqb a c && starts_with sep' t'
  end.

(** [re.search] of a literal separator. *)
Fixpoint contains (sep t : list ascii) : bool :=
  match t with
  | [] => starts_with sep []
  | _ :: t' => starts_with sep t || contains sep t'
  end.

(** [re.split] on a literal, non-empty separator, every piece but the first
    keeping the separator it follows at its start.  [skip] counts the
    characters of a matched separator still to pass; [piece] is the current
    piece, last character first. *)
Fixpoint split_keeping (sep t : list ascii) (skip : nat) (piece : list ascii)
    : list (list ascii) :=
  match t with
  | [] => [rev piece]
  | c :: t' =>
      match skip with
      | S skip' => split_keeping sep t' skip' (c :: piece)
      | O =>
          if starts_with sep t
          then rev piece :: split_keeping sep t' (length sep - 1) [c]
          else split_keeping sep t' 0 (c :: piece)
      end
  end.

(** [_split_text_with_regex(text, separator, keep_separator=True)]: the
    pieces that are not empty; with the empty separator, the characters. *)
Definition split_with_regex (sep t : list ascii) : list (list ascii) :=
  match sep with
  | [] => map (fun c => [c]) t
  | _ :: _ => filter (fun piece => piece <> []) (split_keeping sep t 0 [])
  end.

(** [total] of [_merge_splits]: the length of what [current_doc] joins to.
    The separator [_merge_splits] is handed is the empty string, since
    separators are kept in the pieces. *)
Definition total_length (current_doc : list (list ascii)) : nat :=
  length (concat current_doc).

(** [_join_docs]: the pieces joined and stripped, or [None] when nothing is
    left. *)
Definition join_docs (current_doc : list (list ascii)) : option (list ascii) :=
  match strip_chars (concat current_doc) with
  | [] => None
  | c :: t => Some (c :: t)
  end.

(** The [while] loop of [_merge_splits], which drops pieces from the front
    of [current_doc] until what is left fits the overlap and leaves room for
    a piece of length [len]. *)
Fixpoint drop_front (sp : TextSplitter) (len : nat) (current_doc : list (list ascii))
    : list (list ascii) :=
  match current_doc with
  | [] => []
  | _ :: rest =>
      if (chunk_overlap sp <? total_length current_doc)
         || ((chunk_size sp <? total_length current_doc + len)
             && (0 <? total_length current_doc))
      then drop_front sp len rest
      else current_doc
  end.

(** The [for d in splits] loop of [_merge_splits], with [current_doc] as its
    state and the documents it appends as its result. *)
Fixpoint merge_loop (sp : TextSplitter) (splits current_doc : list (list ascii))
    : list (list ascii) :=
  match splits with
  | [] => option_list (join_docs current_doc)
  | d :: rest =>
      if chunk_size sp <? total_length current_doc + length d then
        match current_doc with
        | [] => merge_loop sp rest [d]
        | _ :: _ =>
            option_list (join_docs current_doc)
            ++ merge_loop sp rest (drop_front sp (length d) current_doc ++ [d])
        end
      else merge_loop sp rest (current_doc ++ [d])
  end.

Definition _merge_splits (sp : TextSplitter) (splits : list (list ascii))
    : list (list ascii) :=
  merge_loop sp splits [].

(** The [for s in splits] loop of [_split_text]: pieces shorter than the
    chunk size are collected in [good] and merged; a longer piece first
    flushes what was collected and is then handed to [deeper], which splits
    it with the separators that remain or, when none remains, keeps it
    whole. *)
Fixpoint split_loop (sp : TextSplitter) (deeper : list ascii -> list (list ascii))
    (splits good : list (list ascii)) : list (list ascii) :=
  match splits with
  | [] => match good with [] => [] | _ :: _ => _merge_splits sp good end
  | s :: rest =>
      if length s <? chunk_size sp then split_loop sp deeper rest (good ++ [s])
      else
        match good with [] => [] | _ :: _ => _merge_splits sp good end
        ++ deeper s ++ split_loop sp deeper rest []
  end.

(** [_split_text(text, separators)].  The first separator that is empty or
    occurs in the text is the one to split on, and the separators after it
    are left for the pieces that are too long; when none occurs, the last
    one is used. *)
Fixpoint _split_text (sp : TextSplitter) (separators : list (list ascii))
    (t : list ascii) : list (list ascii) :=
  match separators with
  | [] => []
  | s :: rest =>
      let whole := fun piece : list ascii => [piece] in
      match s with
      | [] => split_loop sp whole (split_with_regex s t) []
      | _ :: _ =>
          if contains s t then
            split_loop sp
              (match rest with [] => whole | _ :: _ => _split_text sp rest end)
              (split_with_regex s t) []
          else
            match rest with
            | [] => split_loop sp whole (split_with_regex s t) []
            | _ :: _ => _split_text sp rest t
            end
      end
  end.

Definition default_separators : list (list ascii) :=
  [[Py.LF; Py.LF]; [Py.LF]; [" "%char]; []].

Definition split_text (sp : TextSplitter) (t : list ascii) : list (list ascii) :=
  _split_text sp default_separators t.

(** [split_documents] of the same library, which splits the documents one
    after the other, in order, every chunk inheriting the metadata of its
    document. *)
Definition split_documents (sp : TextSplitter) (docs : list Document) : list Document :=
  flat_map
    (fun d => map (fun c => {| page_content := c; metadata := metadata d |})
                  (split_text sp (page_content d)))
    docs.

(** ** The world outside the program *)

(** The FAISS index as the program sees it: its docstore, in insertion
    order.  The embedding vectors are opaque. *)
Abbreviation FAISS := (list Document).

(** What [read()] makes of a file. *)
Inductive file_data : Type :=
| Text (s : string)
| Undecodable.

Record request : Type := {
  req_template : string;
  req_context : list Document;
  req_history : list (string * string);
  req_question : string
}.

Record World : Type := {
  (** [config.VECTOR_STORE_PATH]: [None] when the directory is absent,
      [Some None] when it holds no [index.faiss], otherwise what
      [FAISS.load_local] makes of the files in it. *)
  vectorstore_dir : option (option (outcome FAISS));
  (** [config.UPLOAD_DIR]: the entries, each with [os.path.isfile]. *)
  upload_dir : option (list (string * bool));
  (** [context/background]: [None] when the directory is absent, [Some None]
      when [personal_context.txt] is. *)
  background_dir : option (option file_data);
  (** The lines printed so far. *)
  stdout : list string;
  (** The requests sent to the remote completion service so far. *)
  completion_log : list request
}.

Definition print (line : string) (w : World) : World :=
  {| vectorstore_dir := vectorstore_dir w; upload_dir := upload_dir w;
     background_dir := background_dir w; stdout := stdout w ++ [line];
     completion_log := completion_log w |}.

Definition prints (lines : list string) (w : World) : World :=
  fold_left (fun w line => print line w) lines w.

Definition set_vectorstore_dir (d : option (option (outcome FAISS))) (w : World) : World :=
  {| vectorstore_dir := d; upload_dir := upload_dir w;
     background_dir := background_dir w; stdout := stdout w;
     completion_log := completion_log w |}.

Definition set_upload_dir (d : option (list (string * bool))) (w : World) : World :=
  {| vectorstore_dir := vectorstore_dir w; upload_dir := d;
     background_dir := background_dir w; stdout := stdout w;
     completion_log := completion_log w |}.

Definition set_background_dir (d : option (option file_data)) (w : World) : World :=
  {| vectorstore_dir := vectorstore_dir w; upload_dir := upload_dir w;
     background_dir := d; stdout := stdout w;
     completion_log := completion_log w |}.

Definition log_request (r : request) (w : World) : World :=
  {| vectorstore_dir := vectorstore_dir w; upload_dir := upload_dir w;
     background_dir := background_dir w; stdout := stdout w;
     completion_log := completion_log w ++ [r] |}.

Inductive loader : Type := PyPDFLoader | TextLoader.

(** The answers of the collaborators during one call. *)
Record Env : Type := {
  (** [loader.load()] for the file at a path. *)
  loader_load : loader -> string -> outcome (list Document);
  (** [FAISS.from_documents]: [Some e] when embedding the chunks raises. *)
  from_documents_error : list Document -> option exn;
  (** [save_local]: [Some e] when writing the index raises. *)
  save_local_error : option exn;
  (** [similarity_search(query, k)] on an index. *)
  similarity_search : FAISS -> string -> nat -> list Document;
  (** The remote completion call. *)
  completion : request -> outcome string;
  (** What a chain built with [verbose=True] writes to the standard output
      during one call, given the request and how the completion ended. *)
  verbose_output : request -> outcome string -> list string;
  (** [shutil.rmtree] on the vector-store directory: [Some (e, kept)] when
      it raises [e], leaving the directory holding [kept]. *)
  rmtree_error : option (exn * option (outcome FAISS));
  (** [os.remove] on a file of the upload directory: [Some e] when it
      raises. *)
  remove_error : string -> option exn
}.

(** ** document_manager.py *)

Module DocumentManager.

(** The object: [self.vectorstore] and the configured splitter.  The
    embeddings client is a handle on the remote service, whose answers are
    in [Env]. *)
Record t : Type := {
  text_splitter : TextSplitter;
  vectorstore : option FAISS
}.

Definition set_vectorstore (v : option FAISS) (self : t) : t :=
  {| text_splitter := text_splitter self; vectorstore := v |}.

Definition configured_splitter : TextSplitter :=
  {| chunk_size := config.CHUNK_SIZE;
     chunk_overlap := config.CHUNK_OVERLAP;
     overlap_lt_size := ltac:(unfold config.CHUNK_SIZE, config.CHUNK_OVERLAP; lia) |}.

Definition load_existing_vectorstore (self : t) (w : World) : t * World :=
  match vectorstore_dir w with
  | Some (Some index_files) =>
      match index_files with
      | Returned index =>
          (set_vectorstore (Some index) self, print "Loaded existing vector store" w)
      | Raised e =>
          (set_vectorstore None self,
           print ("Error loading vector store: " +:+ exn_str e) w)
      end
  | _ => (self, w)
  end.

Definition __init__ (w : World) : t * World :=
  load_existing_vectorstore
    {| text_splitter := configured_splitter; vectorstore := None |} w.

(** The [if]/[elif]/[else] of [load_document]: the loader it constructs,
    or the [ValueError] it raises. *)
Definition select_loader (file_path : string) : outcome loader :=
  let ext := snd (Py.splitext file_path) in
  if String.eqb (Py.lower ext) ".pdf" then
    Returned PyPDFLoader
  else if existsb (String.eqb (Py.lower ext)) [".txt"; ".md"] then
    Returned TextLoader
  else
    Raised (ValueError ("Unsupported file type: " +:+ ext)).

Definition load_document (env : Env) (file_path : string) : outcome (list Document) :=
  match select_loader file_path with
  | Returned l => loader_load env l file_path
  | Raised e => Raised e
  end.

Definition tag_source (file_path : string) (doc : Document) : Document :=
  {| page_content := page_content doc;
     metadata := <["source_file" := Py.basename file_path]> (metadata doc) |}.

(** The [for file_path in file_paths] loop, with [all_documents] and the
    world as its state. *)
Fixpoint load_each (env : Env) (file_paths : list string)
    (all_documents : list Document) (w : World) : list Document * World :=
  match file_paths with
  | [] => (all_documents, w)
  | file_path :: rest =>
      match load_document env file_path with
      | Returned docs =>
          load_each env rest (all_documents ++ map (tag_source file_path) docs) w
      | Raised e =>
          load_each env rest all_documents
            (print ("Error processing " +:+ file_path +:+ ": " +:+ exn_str e) w)
      end
  end.

Definition process_documents (env : Env) (self : t) (file_paths : list string)
    (w : World) : list Document * World :=
  let '(all_documents, w') := load_each env file_paths [] w in
  (split_documents (text_splitter self) all_documents, w').

(** The body of the [try] of [create_vectorstore]: the object and the world
    where it stopped, and the exception if one was raised. *)
Definition create_vectorstore_try (env : Env) (self : t) (documents : list Document)
    (w : World) : t * World * option exn :=
  match from_documents_error env documents with
  | Some e => (self, w, Some e)
  | None =>
      let index :=
        match vectorstore self with
        | None => documents
        | Some existing => existing ++ documents
        end in
      let self' := set_vectorstore (Some index) self in
      match save_local_error env with
      | Some e => (self', w, Some e)
      | None =>
          (self',
           print ("Successfully processed " +:+ pretty (length documents)
                  +:+ " document chunks")
                 (set_vectorstore_dir (Some (Some (Returned index))) w),
           None)
      end
  end.

Definition create_vectorstore (env : Env) (self : t) (documents : list Document)
    (w : World) : t * World :=
  match documents with
  | [] => (self, print "No documents to process" w)
  | _ :: _ =>
      match create_vectorstore_try env self documents w with
      | (self', w', None) => (self', w')
      | (self', w', Some e) =>
          (self', print ("Error creating vector store: " +:+ exn_str e) w')
      end
  end.

Definition get_vectorstore (self : t) : option FAISS := vectorstore self.

Definition get_document_count (w : World) : nat :=
  match upload_dir w with
  | Some entries => length (filter (fun f => snd f = true) entries)
  | None => 0
  end.

(** The loop over [os.listdir(config.UPLOAD_DIR)]: the entries that are
    left, and the exception if an [os.remove] raised.  A file that cannot
    be removed stops the loop; it and the entries after it stay. *)
Fixpoint remove_files (env : Env) (entries : list (string * bool))
    : list (string * bool) * option exn :=
  match entries with
  | [] => ([], None)
  | (file, is_file) :: rest =>
      if is_file then
        match remove_error env file with
        | Some e => ((file, is_file) :: rest, Some e)
        | None => remove_files env rest
        end
      else
        let '(kept, raised) := remove_files env rest in
        ((file, is_file) :: kept, raised)
  end.

Definition clear_vectorstore (env : Env) (self : t) (w : World)
    : outcome unit * t * World :=
  let self' := set_vectorstore None self in
  let removed :=
    match vectorstore_dir w with
    | Some _ =>
        match rmtree_error env with
        | Some (e, kept) => (set_vectorstore_dir (Some kept) w, Some e)
        | None => (set_vectorstore_dir None w, None)
        end
    | None => (w, None)
    end in
  match removed with
  | (w1, Some e) => (Raised e, self', w1)
  | (w1, None) =>
      match upload_dir w1 with
      | Some entries =>
          let '(kept, raised) := remove_files env entries in
          let w2 := set_upload_dir (Some kept) w1 in
          match raised with
          | Some e => (Raised e, self', w2)
          | None => (Returned tt, self', w2)
          end
      | None => (Returned tt, self', w1)
      end
  end.

Definition search_documents (env : Env) (self : t) (query : string) (k : nat)
    : list Document :=
  match vectorstore self with
  | None => []
  | Some index => similarity_search env index query k
  end.

Definition load_personal_context (w : World) : option string * World :=
  match background_dir w with
  | Some (Some file) =>
      match file with
      | Text s => (Some (Py.universal_newlines s), w)
      | Undecodable =>
          (None,
           print ("Error loading personal context: "
                  +:+ "'utf-8' codec can't decode the file") w)
      end
  | _ => (None, w)
  end.

Definition save_personal_context (content : string) (w : World) : bool * World :=
  match background_dir w with
  | Some _ => (true, set_background_dir (Some (Some (Text content))) w)
  | None =>
      (false,
       print ("Error saving personal context: "
              +:+ "[Errno 2] No such file or directory: '"
              +:+ config.CONTEXT_FILE_PATH +:+ "'") w)
  end.

End DocumentManager.

(** ** job_job.py *)

(** The prompt templates the three operations read from
    [config.PROMPT_DIR]; the files ship with the application. *)
Record Prompts : Type := {
  resume_optimization_txt : string;
  interview_prep_txt : string;
  application_question_txt : string
}.

Module JobSearchAI.

(** The chain built by [ConversationalRetrievalChain.from_llm]: the
    retriever over the index with its [k], the prompt template and the
    [verbose] flag.  Its memory is the [memory] object of the application,
    held once, in [t]. *)
Record chain : Type := {
  retriever : FAISS;
  search_k : nat;
  chain_template : string;
  chain_verbose : bool
}.

Record t : Type := {
  document_manager : DocumentManager.t;
  memory : list (string * string);
  qa_chain : option chain
}.

Definition set_document_manager (dm : DocumentManager.t) (self : t) : t :=
  {| document_manager := dm; memory := memory self; qa_chain := qa_chain self |}.

Definition set_memory (m : list (string * string)) (self : t) : t :=
  {| document_manager := document_manager self; memory := m; qa_chain := qa_chain self |}.

Definition set_qa_chain (c : option chain) (self : t) : t :=
  {| document_manager := document_manager self; memory := memory self; qa_chain := c |}.

(** The [template] literal of [_setup_qa_chain], line by line. *)
Definition template : string :=
  Py.join_lines
    [ "You are a professional career advisor AI. Use the following pieces of context about the user's experience, skills, and background to answer their question. Always provide specific, actionable advice based on their actual experience.";
      EmptyString;
      "Context from documents: {context}";
      EmptyString;
      "{chat_history}";
      EmptyString;
      "Question: {question}";
      EmptyString;
      "Instructions:";
      "- Use specific examples from the user's experience when possible";
      "- Provide concrete, actionable advice";
      "- If asked about resume optimization, suggest specific changes";
      "- If asked about cover letters, write personalized content";
      "- If asked about interview prep, provide relevant questions and answers";
      "- If asked about application questions, provide authentic responses based on their background";
      "- Be professional but conversational";
      EmptyString;
      "Answer:" ].

Definition upload_first : string :=
  "Please upload your resume and experience documents first.".

Definition dquote : string := String (ascii_of_nat 34) EmptyString.

(** A triple-quoted f-string of the source: it opens with a line break,
    every line carries the eight spaces of the method body, and the closing
    quotes sit on a line of their own. *)
Definition indent : string := "        ".

Fixpoint fblock (lines : list string) : string :=
  match lines with
  | [] => Py.nl +:+ indent
  | l :: rest => Py.nl +:+ indent +:+ l +:+ fblock rest
  end.

Definition _get_personal_context (w : World) : outcome string :=
  match background_dir w with
  | Some (Some file) =>
      match file with
      | Text s =>
          let context := Py.strip (Py.universal_newlines s) in
          Returned
            (if String.eqb context EmptyString then EmptyString
             else Py.nl +:+ Py.nl +:+ "Personal Context: " +:+ context +:+ Py.nl)
      | Undecodable => Raised (ValueError "'utf-8' codec can't decode the file")
      end
  | _ => Returned EmptyString
  end.

Definition _setup_qa_chain (self : t) : t :=
  match DocumentManager.get_vectorstore (document_manager self) with
  | Some index =>
      set_qa_chain
        (Some {| retriever := index; search_k := 4; chain_template := template;
                 chain_verbose := true |})
        self
  | None => self
  end.

Definition __init__ (w : World) : t * World :=
  let '(dm, w') := DocumentManager.__init__ w in
  (_setup_qa_chain {| document_manager := dm; memory := []; qa_chain := None |}, w').

Definition add_documents (env : Env) (self : t) (file_paths : list string)
    (w : World) : t * World :=
  let '(documents, w1) :=
    DocumentManager.process_documents env (document_manager self) file_paths w in
  let '(dm, w2) :=
    DocumentManager.create_vectorstore env (document_manager self) documents w1 in
  (_setup_qa_chain (set_document_manager dm self), w2).

(** Modelled from the spec: calling the chain, [self.qa_chain({...})], whose
    code is the orchestration library and is not in the repository.
    Section 4.4: retrieve the top [k] chunks, compose one prompt from the
    template, the chunks, the whole history and the question, invoke the
    remote completion once, append (question, answer) to the history and
    return the answer; when the remote call fails the failure goes to the
    caller and the turn is not appended.  A verbose chain also writes to
    the standard output while it runs. *)
Definition call_chain (env : Env) (c : chain) (question : string) (self : t)
    (w : World) : outcome string * t * World :=
  let docs := similarity_search env (retriever c) question (search_k c) in
  let req := {| req_template := chain_template c; req_context := docs;
                req_history := memory self; req_question := question |} in
  let result := completion env req in
  let w' :=
    if chain_verbose c then prints (verbose_output env req result) (log_request req w)
    else log_request req w in
  match result with
  | Returned answer =>
      (Returned answer, set_memory (memory self ++ [(question, answer)]) self, w')
  | Raised e => (Raised e, self, w')
  end.

(** The tail the three operations share, from [if self.qa_chain:] on. *)
Definition ask (env : Env) (self : t) (query : string) (w : World)
    : outcome string * t * World :=
  match qa_chain self with
  | Some c =>
      match _get_personal_context w with
      | Returned context =>
          let modified_query :=
            if String.eqb context EmptyString then query else context +:+ " " +:+ query in
          call_chain env c modified_query self w
      | Raised e => (Raised e, self, w)
      end
  | None => (Returned upload_first, self, w)
  end.

Section Operations.
Variable prompts : Prompts.

Definition optimize_resume (env : Env) (self : t) (job_description : string)
    (sections : option (list string)) (w : World) : outcome string * t * World :=
  let prompt := resume_optimization_txt prompts in
  let query :=
    fblock
      [ "Analyze my resume for this job description and suggest specific optimizations:";
        EmptyString;
        "Job Description: " +:+ job_description;
        EmptyString;
        prompt ] in
  ask env self query w.

Definition prepare_interview_questions (env : Env) (self : t)
    (job_description interview_type : string) (w : World)
    : outcome string * t * World :=
  let prompt := interview_prep_txt prompts in
  let query :=
    fblock
      [ "Based on this job description: " +:+ job_description;
        EmptyString;
        "Please help me prepare for a " +:+ interview_type +:+ " interview by:";
        EmptyString;
        prompt ] in
  ask env self query w.

Definition draft_application_response (env : Env) (self : t)
    (question job_description : string) (w : World) : outcome string * t * World :=
  let job_context :=
    if String.eqb (Py.strip job_description) EmptyString then EmptyString
    else Py.nl +:+ Py.nl +:+ "Job Description: " +:+ job_description in
  let prompt := application_question_txt prompts in
  let query :=
    fblock
      [ "I'm filling out a job application and need help drafting a response to this question: "
          +:+ dquote +:+ question +:+ dquote;
        EmptyString;
        "Please help me draft an answer that meets these criteria:";
        prompt;
        EmptyString;
        "Here is job description that the company provided:";
        job_context ] in
  ask env self query w.

End Operations.

Definition save_personal_context (content : string) (w : World) : bool * World :=
  DocumentManager.save_personal_context content w.

Definition get_personal_context (w : World) : string * World :=
  let '(context, w') := DocumentManager.load_personal_context w in
  (match context with
   | Some s => if String.eqb s EmptyString then EmptyString else s
   | None => EmptyString
   end, w').

Definition clear_all_data (env : Env) (self : t) (w : World)
    : outcome unit * t * World :=
  match DocumentManager.clear_vectorstore env (document_manager self) w with
  | (Returned _, dm, w') =>
      (Returned tt, set_qa_chain None (set_memory [] (set_document_manager dm self)), w')
  | (Raised e, dm, w') => (Raised e, set_document_manager dm self, w')
  end.

Definition get_document_count (self : t) : nat :=
  match DocumentManager.get_vectorstore (document_manager self) with
  | Some index => length index
  | None => 0
  end.

(** *** The operations as a labelled transition system *)

Inductive op : Type :=
| AddDocuments (file_paths : list string)
| OptimizeResume (job_description : string) (sections : option (list string))
| PrepareInterviewQuestions (job_description interview_type : string)
| DraftApplicationResponse (question job_description : string)
| SavePersonalContext (content : string)
| GetPersonalContext
| ClearAllData
| GetDocumentCount.

Definition step (prompts : Prompts) (env : Env) (o : op) (self : t) (w : World)
    : t * World :=
  match o with
  | AddDocuments file_paths => add_documents env self file_paths w
  | OptimizeResume jd sections =>
      let '(_, self', w') := optimize_resume prompts env self jd sections w in (self', w')
  | PrepareInterviewQuestions jd it =>
      let '(_, self', w') := prepare_interview_questions prompts env self jd it w in
      (self', w')
  | DraftApplicationResponse q jd =>
      let '(_, self', w') := draft_application_response prompts env self q jd w in
      (self', w')
  | SavePersonalContext content => (self, snd (save_personal_context content w))
  | GetPersonalContext => (self, snd (get_personal_context w))
  | ClearAllData =>
      let '(_, self', w') := clear_all_data env self w in (self', w')
  | GetDocumentCount => (self, w)
  end.

(** The states a session can be in: the constructor run on some world,
    then any operations, each with whatever the collaborators answer, those
    that raise included. *)
Inductive reachable (prompts : Prompts) : t -> World -> Prop :=
| reach_init (w0 : World) :
    reachable prompts (fst (__init__ w0)) (snd (__init__ w0))
| reach_step (env : Env) (o : op) (self : t) (w : World) :
    reachable prompts self w ->
    reachable prompts (fst (step prompts env o self w)) (snd (step prompts env o self w)).

(** The states of a session in which no ingestion has succeeded yet: the
    constructor found no index that loads, and no operation since has left
    one. *)
Inductive before_ingestion (prompts : Prompts) : t -> World -> Prop :=
| before_init (w0 : World) :
    DocumentManager.vectorstore (document_manager (fst (__init__ w0))) = None ->
    before_ingestion prompts (fst (__init__ w0)) (snd (__init__ w0))
| before_step (env : Env) (o : op) (self : t) (w : World) :
    before_ingestion prompts self w ->
    DocumentManager.vectorstore (document_manager (fst (step prompts env o self w)))
    = None ->
    before_ingestion prompts (fst (step prompts env o self w))
      (snd (step prompts env o self w)).

End JobSearchAI.

(** ** Vocabulary of the statements *)

(** The documents a batch contributes, file by file: those of the files
    that load, tagged with their source. *)
Definition loaded (env : Env) (file_paths : list string) : list Document :=
  flat_map
    (fun p => match DocumentManager.load_document env p with
              | Returned docs => map (DocumentManager.tag_source p) docs
              | Raised _ => []
              end)
    file_paths.

(** The error lines a batch prints, file by file. *)
Definition load_errors (env : Env) (file_paths : list string) : list string :=
  flat_map
    (fun p => match DocumentManager.load_document env p with
              | Returned _ => []
              | Raised e => ["Error processing " +:+ p +:+ ": " +:+ exn_str e]
              end)
    file_paths.

(** Nothing durable differs between two worlds. *)
Definition same_storage (w w' : World) : Prop :=
  vectorstore_dir w' = vectorstore_dir w /\
  upload_dir w' = upload_dir w /\
  background_dir w' = background_dir w.

(** The chain [_setup_qa_chain] builds over an index. *)
Definition chain_over (index : FAISS) : JobSearchAI.chain :=
  {| JobSearchAI.retriever := index; JobSearchAI.search_k := 4;
     JobSearchAI.chain_template := JobSearchAI.template;
     JobSearchAI.chain_verbose := true |}.

(** The engine is ready only when an index is present. *)
Definition ready_only_with_index (self : JobSearchAI.t) : Prop :=
  JobSearchAI.qa_chain self <> None ->
  DocumentManager.vectorstore (JobSearchAI.document_manager self) <> None.

(** ** Sample data *)

Definition small_splitter : TextSplitter :=
  {| chunk_size := 5; chunk_overlap := 2; overlap_lt_size := ltac:(lia) |}.

Definition sample_doc : Document :=
  {| page_content := ["P"; "y"; "t"; "h"; "o"; "n"]%char; metadata := ∅ |}.

(** Collaborators that answer: every file loads as [sample_doc] except
    [broken.pdf], embedding and saving work, the index returns its first
    [k] entries, and the completion service answers. *)
Definition sample_env : Env :=
  {| loader_load := fun _ p =>
       if String.eqb p "context/uploads/broken.pdf"
       then Raised (RuntimeError "EOF marker not found")
       else Returned [sample_doc];
     from_documents_error := fun _ => None;
     save_local_error := None;
     similarity_search := fun index _ k => take k index;
     completion := fun _ => Returned "Lead with the Python projects.";
     verbose_output := fun _ _ => ["> Entering new chain..."; "> Finished chain."];
     rmtree_error := None;
     remove_error := fun _ => None |}.

(** The same collaborators with the completion service down. *)
Definition offline_env : Env :=
  {| loader_load := loader_load sample_env;
     from_documents_error := from_documents_error sample_env;
     save_local_error := save_local_error sample_env;
     similarity_search := similarity_search sample_env;
     completion := fun _ => Raised (OSError "Connection error.");
     verbose_output := fun _ _ => ["> Entering new chain..."];
     rmtree_error := None;
     remove_error := fun _ => None |}.

(** A fresh checkout after [config.py] ran: both directories exist and are
    empty, and there is a [context/background] without a context file. *)
Definition fresh_world : World :=
  {| vectorstore_dir := Some None; upload_dir := Some [];
     background_dir := Some None; stdout := []; completion_log := [] |}.

(** A world whose persisted index does not load. *)
Definition corrupt_world : World :=
  {| vectorstore_dir := Some (Some (Raised (RuntimeError "could not read index.faiss")));
     upload_dir := Some [("cv.txt", true)];
     background_dir := Some None; stdout := []; completion_log := [] |}.

Definition sample_prompts : Prompts :=
  {| resume_optimization_txt := "List the three most relevant changes.";
     interview_prep_txt := "Give five likely questions.";
     application_question_txt := "Keep it under 200 words." |}.

Definition fresh_ai : JobSearchAI.t := fst (JobSearchAI.__init__ fresh_world).

Definition ready_state : JobSearchAI.t * World :=
  JobSearchAI.add_documents sample_env fresh_ai ["context/uploads/cv.txt"] fresh_world.

(** A context typed with a carriage return between two letters, and the
    same with a line feed instead. *)
Definition cr_text : string := String "a" (String Py.CR (String "b" EmptyString)).
Definition lf_text : string := String "a" (String Py.LF (String "b" EmptyString)).

(** ** Further vocabulary: paths, queries, sample worlds *)

(** [os.path.join(a, b)] of [posixpath], for two components. *)
Definition posix_join (a b : string) : string :=
  match b with
  | String c _ =>
      if Ascii.eqb c "/" then b
      else if String.eqb a EmptyString then b
      else if String.eqb (Py.slice_from a (Z.of_nat (String.length a) - 1)%Z) "/"
           then a +:+ b
           else a +:+ "/" +:+ b
  | EmptyString =>
      if String.eqb a EmptyString then b
      else if String.eqb (Py.slice_from a (Z.of_nat (String.length a) - 1)%Z) "/"
           then a +:+ b
           else a +:+ "/" +:+ b
  end.

(** The path [save_uploaded_file] writes the upload to and returns. *)
Definition uploaded_file_path (name : string) : string :=
  posix_join config.UPLOAD_DIR name.

(** The [query] each operation builds before it looks at the chain. *)
Definition resume_query (prompts : Prompts) (job_description : string) : string :=
  JobSearchAI.fblock
    [ "Analyze my resume for this job description and suggest specific optimizations:";
      EmptyString;
      "Job Description: " +:+ job_description;
      EmptyString;
      resume_optimization_txt prompts ].

Definition interview_query (prompts : Prompts) (job_description interview_type : string)
    : string :=
  JobSearchAI.fblock
    [ "Based on this job description: " +:+ job_description;
      EmptyString;
      "Please help me prepare for a " +:+ interview_type +:+ " interview by:";
      EmptyString;
      interview_prep_txt prompts ].

(** The block [_get_personal_context] returns for a non-empty context. *)
Definition personal_block (context : string) : string :=
  Py.nl +:+ Py.nl +:+ "Personal Context: " +:+ context +:+ Py.nl.

(** The request the chain sends for a question, in a given state. *)
Definition request_for (env : Env) (c : JobSearchAI.chain) (self : JobSearchAI.t)
    (question : string) : request :=
  {| req_template := JobSearchAI.chain_template c;
     req_context :=
       similarity_search env (JobSearchAI.retriever c) question (JobSearchAI.search_k c);
     req_history := JobSearchAI.memory self;
     req_question := question |}.

(** The world after the chain sent a request: the request is on record,
    and a verbose chain has printed what the library prints for the call. *)
Definition sent (env : Env) (c : JobSearchAI.chain) (req : request) (w : World)
    : World :=
  if JobSearchAI.chain_verbose c
  then prints (verbose_output env req (completion env req)) (log_request req w)
  else log_request req w.

(** What a call of the chain prints. *)
Definition chain_output (env : Env) (c : JobSearchAI.chain) (req : request)
    : list string :=
  if JobSearchAI.chain_verbose c then verbose_output env req (completion env req) else [].

(** The ready state with a context file that cannot be decoded. *)
Definition garbled_world : World :=
  set_background_dir (Some (Some Undecodable)) (snd ready_state).

(** Collaborators whose index cannot be written. *)
Definition readonly_env : Env :=
  {| loader_load := loader_load sample_env;
     from_documents_error := from_documents_error sample_env;
     save_local_error := Some (OSError "Read-only file system");
     similarity_search := similarity_search sample_env;
     completion := completion sample_env;
     verbose_output := verbose_output sample_env;
     rmtree_error := None;
     remove_error := fun _ => None |}.

(** Collaborators whose embedding service is down. *)
Definition no_embedding_env : Env :=
  {| loader_load := loader_load sample_env;
     from_documents_error := fun _ => Some (OSError "Connection error.");
     save_local_error := save_local_error sample_env;
     similarity_search := similarity_search sample_env;
     completion := completion sample_env;
     verbose_output := verbose_output sample_env;
     rmtree_error := None;
     remove_error := fun _ => None |}.

(** An upload directory that holds two files and a sub-directory. *)
Definition busy_world : World :=
  {| vectorstore_dir := Some (Some (Returned [sample_doc]));
     upload_dir := Some [("cv.txt", true); ("archive", false); ("notes.md", true)];
     background_dir := Some (Some (Text "Ten years of Python."));
     stdout := ["Loaded existing vector store"]; completion_log := [] |}.

Definition application_query (prompts : Prompts) (question job_description : string)
    : string :=
  JobSearchAI.fblock
    [ "I'm filling out a job application and need help drafting a response to this question: "
        +:+ JobSearchAI.dquote +:+ question +:+ JobSearchAI.dquote;
      EmptyString;
      "Please help me draft an answer that meets these criteria:";
      application_question_txt prompts;
      EmptyString;
      "Here is job description that the company provided:";
      if String.eqb (Py.strip job_description) EmptyString then EmptyString
      else Py.nl +:+ Py.nl +:+ "Job Description: " +:+ job_description ].

(** The question an operation hands to the chain: its query, after the
    personal context block when there is one. *)
Definition question_with (context query : string) : string :=
  if String.eqb context EmptyString then query else context +:+ " " +:+ query.

(** Collaborators under which the vector-store directory is a mount point:
    [shutil.rmtree] empties it and raises when it removes the directory
    itself. *)
Definition mounted_env : Env :=
  {| loader_load := loader_load sample_env;
     from_documents_error := from_documents_error sample_env;
     save_local_error := save_local_error sample_env;
     similarity_search := similarity_search sample_env;
     completion := completion sample_env;
     verbose_output := verbose_output sample_env;
     rmtree_error := Some (OSError "[Errno 16] Device or resource busy", None);
     remove_error := fun _ => None |}.

(** The ready state after one answered query. *)
Definition talked_state : JobSearchAI.t * World :=
  let '(_, self, w) :=
    JobSearchAI.optimize_resume sample_prompts sample_env (fst ready_state)
      "Backend engineer" None (snd ready_state) in
  (self, w).

(** A call of [clear_all_data] that returns. *)
Definition clear_completes (env : Env) (self : JobSearchAI.t) (w : World) : Prop :=
  is_returned (fst (fst (JobSearchAI.clear_all_data env self w))) = true.

(** Every [shutil.rmtree] and [os.remove] of the call goes through. *)
Definition removals_succeed (env : Env) : Prop :=
  rmtree_error env = None /\ forall file, remove_error env file = None.



(** Four hundred two-letter words, each followed by a space. *)
Definition words_text : list ascii := concat (replicate 400 ["a"; "b"; " "]%char).

(** * Properties *)

(** ** The chunker *)

Section ChunkerFacts.
Context {A : Type}.
Implicit Types (sp : TextSplitter) (t c : list A).

Lemma window_split_short sp t :
  t <> [] -> length t <= chunk_size sp -> window_split sp t = [t].
Proof.
  intros Hne Hle. destruct t as [|x t']; [done|].
  simp window_split. destruct (le_lt_dec _ _) as [H|H]; [reflexivity|exfalso; lia].
Qed.

Lemma window_split_long sp t :
  chunk_size sp < length t ->
  window_split sp t
  = take (chunk_size sp) t
    :: window_split sp (drop (chunk_size sp - chunk_overlap sp) t).
Proof.
  intros Hlt. destruct t as [|x t']; [simpl in Hlt; lia|].
  simp window_split. destruct (le_lt_dec _ _) as [H|H]; [exfalso; lia|reflexivity].
Qed.
End ChunkerFacts.

Section ChunkerContract.
Context {A : Type}.
Implicit Types (sp : TextSplitter) (t c : list A).

(** Strong induction on the length of the text, the measure the window
    recursion descends on. *)
Lemma text_length_ind (P : list A -> Prop) :
  (forall t, (forall u, length u < length t -> P u) -> P t) -> forall t, P t.
Proof.
  intros step t. remember (length t) as n eqn:Hn.
  revert t Hn. induction n as [n IH] using lt_wf_ind.
  intros t ->. apply step. intros u Hu. eapply IH; [exact Hu|reflexivity].
Qed.

Lemma drop_stride_shorter sp t :
  chunk_size sp < length t ->
  length (drop (chunk_size sp - chunk_overlap sp) t) < length t.
Proof.
  intros Hlt. pose proof (overlap_lt_size sp). rewrite length_drop. lia.
Qed.


Lemma window_split_bounded sp t c :
  c ∈ window_split sp t -> length c <= chunk_size sp.
Proof.
  revert c. induction t as [t IH] using text_length_ind. intros c Hc.
  destruct t as [|x t'].
  { simp window_split in Hc. by apply elem_of_nil in Hc. }
  destruct (le_lt_dec (length (x :: t')) (chunk_size sp)) as [Hle|Hgt].
  - rewrite window_split_short in Hc by done.
    apply list_elem_of_singleton in Hc. by subst.
  - rewrite window_split_long in Hc by done.
    apply elem_of_cons in Hc as [->|Hc].
    + rewrite length_take. lia.
    + eapply IH; [|exact Hc]. by apply drop_stride_shorter.
Qed.






End ChunkerContract.

Example window_split_small :
  window_split small_splitter [1; 2; 3; 4; 5; 6; 7; 8; 9; 10; 11; 12]
  = [[1; 2; 3; 4; 5]; [4; 5; 6; 7; 8]; [7; 8; 9; 10; 11]; [10; 11; 12]].
Proof. reflexivity. Qed.

Example window_split_empty : window_split small_splitter (@nil nat) = [].
Proof. reflexivity. Qed.

(** ** The splitter of the library *)

Example split_text_spaces :
  split_text small_splitter (list_ascii_of_string "a b c d e f g h")
  = map list_ascii_of_string ["a b c"; "c d"; "d e"; "e f"; "f g"; "g h"].
Proof. vm_compute. reflexivity. Qed.

Example split_text_words :
  split_text small_splitter (list_ascii_of_string "ab cd ef")
  = map list_ascii_of_string ["ab cd"; "ef"].
Proof. vm_compute. reflexivity. Qed.

Example split_text_blank :
  split_text small_splitter (list_ascii_of_string "   ") = [].
Proof. vm_compute. reflexivity. Qed.

(** The scenario of the spec: a text of 3000 characters gives 4 chunks. *)
Example split_text_3000 :
  map length (split_text DocumentManager.configured_splitter (replicate 3000 "a"%char))
  = [1000; 1000; 1000; 600].
Proof. vm_compute. reflexivity. Qed.

(** A text of words is cut at spaces: the first chunk ends with a word, two
    characters short of the chunk size, and the second starts at a word 197
    characters before that end. *)
Example split_text_on_words :
  let chunks := split_text DocumentManager.configured_splitter words_text in
  length words_text = 1200
  /\ map length chunks = [998; 398]
  /\ chunks = [take 998 words_text; take 398 (drop 801 words_text)]
  /\ length (reconstruct 200 chunks) = 1196.
Proof. vm_compute. repeat split; reflexivity. Qed.















(** *** No chunk is longer than the chunk size *)








(** *** The contract of the chunker *)



(** ** Printing and storage *)

Lemma stdout_prints lines w : stdout (prints lines w) = stdout w ++ lines.
Proof.
  revert w. induction lines as [|l lines IH]; intros w; simpl.
  - by rewrite app_nil_r.
  - rewrite IH. simpl. by rewrite <- app_assoc.
Qed.

Lemma same_storage_refl w : same_storage w w.
Proof. by repeat split. Qed.

Lemma same_storage_print line w : same_storage w (print line w).
Proof. by repeat split. Qed.

Lemma same_storage_prints lines w : same_storage w (prints lines w).
Proof.
  revert w. induction lines as [|l lines IH]; intros w; simpl.
  - apply same_storage_refl.
  - destruct (IH (print l w)) as (H1 & H2 & H3). by repeat split.
Qed.

Lemma completion_log_prints lines w :
  completion_log (prints lines w) = completion_log w.
Proof.
  revert w. induction lines as [|l lines IH]; intros w; simpl; [done|].
  by rewrite IH.
Qed.

(** ** Loading a batch *)

Lemma loaded_app env ps qs : loaded env (ps ++ qs) = loaded env ps ++ loaded env qs.
Proof. unfold loaded. apply flat_map_app. Qed.

Lemma load_errors_app env ps qs :
  load_errors env (ps ++ qs) = load_errors env ps ++ load_errors env qs.
Proof. unfold load_errors. apply flat_map_app. Qed.

Lemma prints_app ls ms w : prints (ls ++ ms) w = prints ms (prints ls w).
Proof. unfold prints. apply fold_left_app. Qed.

Lemma load_each_spec env file_paths all_documents w :
  DocumentManager.load_each env file_paths all_documents w
  = (all_documents ++ loaded env file_paths, prints (load_errors env file_paths) w).
Proof.
  revert all_documents w.
  induction file_paths as [|p ps IH]; intros acc w.
  - simpl. by rewrite app_nil_r.
  - cbn [DocumentManager.load_each]. unfold loaded, load_errors in *.
    cbn [flat_map].
    destruct (DocumentManager.load_document env p) as [docs|e]; rewrite IH.
    + by rewrite app_assoc.
    + reflexivity.
Qed.

Lemma process_documents_spec env self file_paths w :
  DocumentManager.process_documents env self file_paths w
  = (split_documents (DocumentManager.text_splitter self) (loaded env file_paths),
     prints (load_errors env file_paths) w).
Proof.
  unfold DocumentManager.process_documents. by rewrite load_each_spec.
Qed.

Lemma split_documents_app sp ds es :
  split_documents sp (ds ++ es) = split_documents sp ds ++ split_documents sp es.
Proof. unfold split_documents. apply flat_map_app. Qed.

Lemma split_documents_incl sp ds es d :
  (forall x, x ∈ ds -> x ∈ es) -> d ∈ split_documents sp ds -> d ∈ split_documents sp es.
Proof.
  unfold split_documents. rewrite !list_elem_of_In, !in_flat_map.
  intros Hsub (x & Hx & Hd). exists x. split; [|done].
  apply list_elem_of_In, Hsub, list_elem_of_In, Hx.
Qed.

(** C5. When one file of a batch fails to load, [process_documents] still
    returns: its chunks are those of the files before the failed one
    followed by those of the files after it, the failed file adds exactly
    one line to what is printed, between the lines of the files before and
    after it, and every file of the batch that loads has all its chunks in
    the result. *)
Theorem failed_load_does_not_abort_batch
    env self (before after : list string) (bad : string) (e : exn) (w : World) :
  DocumentManager.load_document env bad = Raised e ->
  let result := DocumentManager.process_documents env self (before ++ bad :: after) w in
  fst result
  = fst (DocumentManager.process_documents env self before w)
    ++ fst (DocumentManager.process_documents env self after w)
  /\ stdout (snd result)
     = stdout w ++ load_errors env before
       ++ ["Error processing " +:+ bad +:+ ": " +:+ exn_str e]
       ++ load_errors env after
  /\ forall p docs d,
       p ∈ before ++ after ->
       DocumentManager.load_document env p = Returned docs ->
       d ∈ split_documents (DocumentManager.text_splitter self)
             (map (DocumentManager.tag_source p) docs) ->
       d ∈ fst result.
Proof.
  intros Hbad result. subst result. rewrite !process_documents_spec. cbn [fst snd].
  assert (Hl : loaded env (before ++ bad :: after) = loaded env before ++ loaded env after).
  { rewrite loaded_app. f_equal.
    change (bad :: after) with ([bad] ++ after). rewrite loaded_app.
    unfold loaded at 1. cbn [flat_map]. by rewrite Hbad. }
  rewrite Hl, split_documents_app. split; [done|]. split.
  - rewrite stdout_prints, load_errors_app. do 2 f_equal.
    change (bad :: after) with ([bad] ++ after). rewrite load_errors_app.
    unfold load_errors at 1. cbn [flat_map]. by rewrite Hbad.
  - intros p docs d Hp Hload Hd. rewrite <- split_documents_app, <- loaded_app.
    eapply split_documents_incl; [|exact Hd].
    intros x Hx. unfold loaded. apply list_elem_of_In, in_flat_map.
    exists p. split; [by apply list_elem_of_In|].
    rewrite Hload. by apply list_elem_of_In.
Qed.

Lemma failed_load_does_not_abort_batch_witness :
  let env := sample_env in
  let self := fst (DocumentManager.__init__ fresh_world) in
  let before := ["context/uploads/cv.txt"] in
  let bad := "context/uploads/broken.pdf" in
  let after := ["context/uploads/notes.md"] in
  let e := RuntimeError "EOF marker not found" in
  let w := fresh_world in
  DocumentManager.load_document env bad = Raised e /\
  let result := DocumentManager.process_documents env self (before ++ bad :: after) w in
  fst result
  = fst (DocumentManager.process_documents env self before w)
    ++ fst (DocumentManager.process_documents env self after w)
  /\ stdout (snd result)
     = stdout w ++ load_errors env before
       ++ ["Error processing " +:+ bad +:+ ": " +:+ exn_str e]
       ++ load_errors env after
  /\ forall p docs d,
       p ∈ before ++ after ->
       DocumentManager.load_document env p = Returned docs ->
       d ∈ split_documents (DocumentManager.text_splitter self)
             (map (DocumentManager.tag_source p) docs) ->
       d ∈ fst result.
Proof.
  split; [reflexivity|].
  apply (failed_load_does_not_abort_batch sample_env
           (fst (DocumentManager.__init__ fresh_world))
           ["context/uploads/cv.txt"] ["context/uploads/notes.md"]
           "context/uploads/broken.pdf" (RuntimeError "EOF marker not found")
           fresh_world).
  reflexivity.
Defined.

Example process_documents_batch :
  let result :=
    DocumentManager.process_documents sample_env
      (fst (DocumentManager.__init__ fresh_world))
      ["context/uploads/cv.txt"; "context/uploads/broken.pdf"; "context/uploads/notes.md"]
      fresh_world in
  map page_content (fst result)
  = [["P"; "y"; "t"; "h"; "o"; "n"]%char; ["P"; "y"; "t"; "h"; "o"; "n"]%char]
  /\ map (fun d => metadata d !! "source_file") (fst result)
     = [Some "cv.txt"; Some "notes.md"]
  /\ stdout (snd result)
     = ["Error processing context/uploads/broken.pdf: EOF marker not found"].
Proof. vm_compute. done. Qed.

(** ** Choosing a loader *)

Example select_loader_upper :
  DocumentManager.select_loader "context/uploads/CV.PDF" = Returned PyPDFLoader.
Proof. reflexivity. Qed.

Example select_loader_mixed :
  DocumentManager.select_loader "notes.Md" = Returned TextLoader.
Proof. reflexivity. Qed.

Example select_loader_docx :
  DocumentManager.select_loader "cv.docx"
  = Raised (ValueError "Unsupported file type: .docx").
Proof. reflexivity. Qed.

Example select_loader_no_extension :
  DocumentManager.select_loader "context/uploads.d/README"
  = Raised (ValueError "Unsupported file type: ").
Proof. reflexivity. Qed.

Lemma existsb_eqb_elem_of (s : string) (l : list string) :
  existsb (String.eqb s) l = true <-> s ∈ l.
Proof.
  rewrite existsb_exists. split.
  - intros (x & Hx & Heq). apply String.eqb_eq in Heq. subst. by apply list_elem_of_In.
  - intros Hs. exists s. split; [by apply list_elem_of_In|apply String.eqb_refl].
Qed.

(** C6. [load_document] hands the file to a loader exactly when the
    extension of the path, lower-cased, is one of .pdf, .txt and .md (the
    PDF loader for the first, the text loader for the other two); for every
    other extension it raises a [ValueError] whose message is
    "Unsupported file type: " followed by the extension as written. *)
Theorem load_document_by_extension (env : Env) (file_path : string) :
  let ext := snd (Py.splitext file_path) in
  DocumentManager.select_loader file_path
  = (if decide (Py.lower ext ∈ [".pdf"; ".txt"; ".md"])
     then Returned (if decide (Py.lower ext = ".pdf") then PyPDFLoader else TextLoader)
     else Raised (ValueError ("Unsupported file type: " +:+ ext)))
  /\ DocumentManager.load_document env file_path
     = (if decide (Py.lower ext ∈ [".pdf"; ".txt"; ".md"])
        then loader_load env
               (if decide (Py.lower ext = ".pdf") then PyPDFLoader else TextLoader)
               file_path
        else Raised (ValueError ("Unsupported file type: " +:+ ext))).
Proof.
  intros ext.
  assert (Hsel : DocumentManager.select_loader file_path
    = (if decide (Py.lower ext ∈ [".pdf"; ".txt"; ".md"])
       then Returned (if decide (Py.lower ext = ".pdf") then PyPDFLoader else TextLoader)
       else Raised (ValueError ("Unsupported file type: " +:+ ext)))).
  { unfold DocumentManager.select_loader. fold ext.
    destruct (String.eqb (Py.lower ext) ".pdf") eqn:Hpdf.
    - apply String.eqb_eq in Hpdf.
      rewrite decide_True by (rewrite Hpdf; apply list_elem_of_here).
      by rewrite decide_True.
    - apply String.eqb_neq in Hpdf.
      destruct (existsb (String.eqb (Py.lower ext)) [".txt"; ".md"]) eqn:Htxt.
      + apply existsb_eqb_elem_of in Htxt.
        rewrite decide_True by (by apply list_elem_of_further).
        by rewrite decide_False.
      + rewrite decide_False; [done|].
        intros Hin. apply elem_of_cons in Hin as [Heq|Hin]; [done|].
        apply existsb_eqb_elem_of in Hin. congruence. }
  split; [exact Hsel|].
  unfold DocumentManager.load_document. rewrite Hsel.
  by destruct (decide (Py.lower ext ∈ [".pdf"; ".txt"; ".md"])).
Qed.

(** ** Creating the vector store *)

(** C10. [create_vectorstore] with no documents leaves the object as it
    was, so its index stays absent when it was absent, and changes nothing
    durable: it only prints "No documents to process". *)
Theorem create_vectorstore_empty_noop (env : Env) (self : DocumentManager.t) (w : World) :
  let '(self', w') := DocumentManager.create_vectorstore env self [] w in
  self' = self
  /\ DocumentManager.vectorstore self' = DocumentManager.vectorstore self
  /\ vectorstore_dir w' = vectorstore_dir w
  /\ upload_dir w' = upload_dir w
  /\ background_dir w' = background_dir w
  /\ completion_log w' = completion_log w
  /\ stdout w' = stdout w ++ ["No documents to process"].
Proof. cbn. by repeat split. Qed.

(** ** Removing the index and the uploads *)

Lemma remove_files_returned (env : Env) (entries kept : list (string * bool)) :
  DocumentManager.remove_files env entries = (kept, None) ->
  kept = filter (fun f => snd f = false) entries.
Proof.
  revert kept. induction entries as [|[file is_file] rest IH]; intros kept.
  - cbn. by injection 1 as <-.
  - cbn [DocumentManager.remove_files]. destruct is_file.
    + rewrite (filter_cons_False (fun f => snd f = false)) by done.
      destruct (remove_error env file); [discriminate|]. apply IH.
    + rewrite (filter_cons_True (fun f => snd f = false)) by done.
      destruct (DocumentManager.remove_files env rest) as [kept' raised].
      injection 1 as <- ->. f_equal. by apply IH.
Qed.

Lemma remove_files_ok (env : Env) (entries : list (string * bool)) :
  (forall file, remove_error env file = None) ->
  DocumentManager.remove_files env entries
  = (filter (fun f => snd f = false) entries, None).
Proof.
  intros Hok. induction entries as [|[file is_file] rest IH]; [done|].
  cbn [DocumentManager.remove_files]. destruct is_file.
  - rewrite (filter_cons_False (fun f => snd f = false)) by done.
    by rewrite Hok.
  - rewrite (filter_cons_True (fun f => snd f = false)) by done.
    by rewrite IH.
Qed.

(** The object loses its index whether the removals go through or not. *)
Lemma clear_vectorstore_object (env : Env) (dm : DocumentManager.t) (w : World) :
  DocumentManager.vectorstore (snd (fst (DocumentManager.clear_vectorstore env dm w)))
  = None.
Proof.
  unfold DocumentManager.clear_vectorstore.
  destruct (vectorstore_dir w) as [d|]; [destruct (rmtree_error env) as [[e kept]|]|];
    cbn; try done.
  all: destruct (upload_dir w) as [entries|]; [|done].
  all: destruct (DocumentManager.remove_files env entries) as [kept [e|]]; done.
Qed.

Lemma clear_vectorstore_ok (env : Env) (dm : DocumentManager.t) (w : World) :
  removals_succeed env ->
  fst (fst (DocumentManager.clear_vectorstore env dm w)) = Returned tt.
Proof.
  intros [Hrm Hremove]. unfold DocumentManager.clear_vectorstore. rewrite Hrm.
  destruct (vectorstore_dir w) as [d|]; cbn.
  all: destruct (upload_dir w) as [entries|]; [|done].
  all: by rewrite remove_files_ok.
Qed.

(** ** Starting from a persisted index that does not load *)

(** C7. When the vector-store directory holds an index that
    [FAISS.load_local] cannot load, for whatever exception, the constructor
    of [DocumentManager] returns with no index, having printed the error
    and touched nothing durable; from there a search returns the empty
    list, a store can be created from documents, a clear leaves the object
    without index and returns when its removals go through, and the
    application constructor returns an uninitialized engine. *)
Theorem failed_index_load_starts_empty (w : World) (e : exn) :
  vectorstore_dir w = Some (Some (Raised e)) ->
  let '(dm, w') := DocumentManager.__init__ w in
  DocumentManager.vectorstore dm = None
  /\ stdout w' = stdout w ++ ["Error loading vector store: " +:+ exn_str e]
  /\ same_storage w w'
  /\ (forall env query k, DocumentManager.search_documents env dm query k = [])
  /\ (forall env documents,
        documents <> [] -> from_documents_error env documents = None ->
        DocumentManager.vectorstore
          (fst (DocumentManager.create_vectorstore env dm documents w'))
        = Some documents)
  /\ (forall env,
        DocumentManager.vectorstore
          (snd (fst (DocumentManager.clear_vectorstore env dm w'))) = None
        /\ (removals_succeed env ->
            fst (fst (DocumentManager.clear_vectorstore env dm w')) = Returned tt))
  /\ JobSearchAI.qa_chain (fst (JobSearchAI.__init__ w)) = None
  /\ JobSearchAI.memory (fst (JobSearchAI.__init__ w)) = [].
Proof.
  intros Hdir.
  unfold JobSearchAI.__init__, DocumentManager.__init__,
    DocumentManager.load_existing_vectorstore.
  rewrite Hdir. cbn.
  split; [done|]. split; [done|]. split; [done|]. split; [done|].
  split; [|split; [|done]].
  - intros env documents Hne Hemb.
    destruct documents as [|d ds]; [done|].
    unfold DocumentManager.create_vectorstore, DocumentManager.create_vectorstore_try.
    rewrite Hemb. cbn. by destruct (save_local_error env).
  - intros env. split; [apply clear_vectorstore_object|].
    intros Hok. by apply clear_vectorstore_ok.
Qed.

Lemma failed_index_load_starts_empty_witness :
  let w := corrupt_world in
  let e := RuntimeError "could not read index.faiss" in
  vectorstore_dir w = Some (Some (Raised e)) /\
  let '(dm, w') := DocumentManager.__init__ w in
  DocumentManager.vectorstore dm = None
  /\ stdout w' = stdout w ++ ["Error loading vector store: " +:+ exn_str e]
  /\ same_storage w w'
  /\ (forall env query k, DocumentManager.search_documents env dm query k = [])
  /\ (forall env documents,
        documents <> [] -> from_documents_error env documents = None ->
        DocumentManager.vectorstore
          (fst (DocumentManager.create_vectorstore env dm documents w'))
        = Some documents)
  /\ (forall env,
        DocumentManager.vectorstore
          (snd (fst (DocumentManager.clear_vectorstore env dm w'))) = None
        /\ (removals_succeed env ->
            fst (fst (DocumentManager.clear_vectorstore env dm w')) = Returned tt))
  /\ JobSearchAI.qa_chain (fst (JobSearchAI.__init__ w)) = None
  /\ JobSearchAI.memory (fst (JobSearchAI.__init__ w)) = [].
Proof.
  split; [reflexivity|].
  apply (failed_index_load_starts_empty corrupt_world
           (RuntimeError "could not read index.faiss")).
  reflexivity.
Defined.

(** ** Clearing all data *)

Lemma no_file_left (entries : list (string * bool)) :
  length (filter (fun f => snd f = true) (filter (fun f => snd f = false) entries)) = 0.
Proof.
  induction entries as [|[name isfile] entries IH]; [done|].
  destruct isfile.
  - rewrite (filter_cons_False (fun f => snd f = false)) by done. exact IH.
  - rewrite (filter_cons_True (fun f => snd f = false)) by done.
    rewrite (filter_cons_False (fun f => snd f = true)) by done. exact IH.
Qed.

Lemma clear_vectorstore_world (env : Env) (dm dm' : DocumentManager.t)
    (w w' : World) (u : unit) :
  DocumentManager.clear_vectorstore env dm w = (Returned u, dm', w') ->
  dm' = DocumentManager.set_vectorstore None dm
  /\ vectorstore_dir w' = None
  /\ upload_dir w' = filter (fun f => snd f = false) <$> upload_dir w
  /\ background_dir w' = background_dir w
  /\ stdout w' = stdout w
  /\ completion_log w' = completion_log w.
Proof.
  unfold DocumentManager.clear_vectorstore.
  destruct (vectorstore_dir w) as [d|] eqn:Hd;
    [destruct (rmtree_error env) as [[e kept]|]; [discriminate|]|].
  all: cbn [upload_dir set_vectorstore_dir].
  all: destruct (upload_dir w) as [entries|] eqn:Hu.
  all: try (destruct (DocumentManager.remove_files env entries) as [kept [e|]] eqn:Hrm;
            [discriminate|]; apply remove_files_returned in Hrm as ->).
  all: injection 1 as _ <- <-; cbn; rewrite ?Hd, ?Hu; repeat split; reflexivity.
Qed.

(** C3. When the removals go through, [clear_all_data] completes; and after
    one call that completes, from any state of the application and of the
    world, the index is gone from the object and its directory removed from
    storage, no file is left in the upload directory (both document counts
    are 0), the history is empty and there is no chain. *)
Theorem clear_all_data_resets (env : Env) (self : JobSearchAI.t) (w : World) :
  let '(result, self', w') := JobSearchAI.clear_all_data env self w in
  (removals_succeed env -> result = Returned tt)
  /\ (result = Returned tt ->
      DocumentManager.vectorstore (JobSearchAI.document_manager self') = None
      /\ vectorstore_dir w' = None
      /\ DocumentManager.get_document_count w' = 0
      /\ JobSearchAI.get_document_count self' = 0
      /\ JobSearchAI.memory self' = []
      /\ JobSearchAI.qa_chain self' = None).
Proof.
  unfold JobSearchAI.clear_all_data.
  pose proof (clear_vectorstore_ok env (JobSearchAI.document_manager self) w) as Hok.
  destruct (DocumentManager.clear_vectorstore env (JobSearchAI.document_manager self) w)
    as [[[u|e] dm] w'] eqn:Hclear.
  - split; [done|]. intros _.
    apply clear_vectorstore_world in Hclear as (-> & Hdir & Hup & _).
    cbn. unfold JobSearchAI.get_document_count, DocumentManager.get_document_count.
    cbn. rewrite Hup. repeat split; try done.
    destruct (upload_dir w) as [entries|]; [apply no_file_left|done].
  - split; [|done]. intros Hsucc. specialize (Hok Hsucc). cbn in Hok. done.
Qed.

Lemma clear_all_data_resets_witness :
  let '(result, self', w') :=
    JobSearchAI.clear_all_data sample_env (fst talked_state) (snd talked_state) in
  removals_succeed sample_env
  /\ JobSearchAI.qa_chain (fst talked_state) <> None
  /\ JobSearchAI.memory (fst talked_state) <> []
  /\ vectorstore_dir (snd talked_state) <> None
  /\ result = Returned tt
  /\ DocumentManager.vectorstore (JobSearchAI.document_manager self') = None
  /\ vectorstore_dir w' = None
  /\ DocumentManager.get_document_count w' = 0
  /\ JobSearchAI.get_document_count self' = 0
  /\ JobSearchAI.memory self' = []
  /\ JobSearchAI.qa_chain self' = None.
Proof.
  pose proof (clear_all_data_resets sample_env (fst talked_state) (snd talked_state))
    as Hclear.
  destruct (JobSearchAI.clear_all_data sample_env (fst talked_state) (snd talked_state))
    as [[result self'] w'].
  destruct Hclear as [Hreturns Hresets].
  assert (Hsucc : removals_succeed sample_env) by (split; [reflexivity|intros; reflexivity]).
  split; [exact Hsucc|].
  split; [vm_compute; discriminate|]. split; [vm_compute; discriminate|].
  split; [vm_compute; discriminate|].
  split; [exact (Hreturns Hsucc)|].
  exact (Hresets (Hreturns Hsucc)).
Defined.

(** ** The personal context file *)

Lemma universal_newlines_without_cr (s : string) :
  Py.has_char Py.CR s = false -> Py.universal_newlines s = s.
Proof.
  induction s as [|c s IH]; [done|].
  cbn [Py.has_char Py.universal_newlines]. intros Hcr.
  apply orb_false_elim in Hcr as [Hc Hs].
  rewrite Hc. f_equal. by apply IH.
Qed.

Lemma save_personal_context_true (c : string) (w w' : World) :
  DocumentManager.save_personal_context c w = (true, w') ->
  background_dir w' = Some (Some (Text c))
  /\ vectorstore_dir w' = vectorstore_dir w
  /\ upload_dir w' = upload_dir w.
Proof.
  unfold DocumentManager.save_personal_context.
  destruct (background_dir w); [|discriminate].
  by injection 1 as <-.
Qed.

(** C9, as stated, fails: a context holding a carriage return is saved (the
    save returns [True]) and comes back with a line feed in its place. *)
Lemma personal_context_cr_not_verbatim :
  let saved := DocumentManager.save_personal_context cr_text fresh_world in
  fst saved = true
  /\ fst (DocumentManager.load_personal_context (snd saved)) = Some lf_text
  /\ fst (DocumentManager.load_personal_context (snd saved)) <> Some cr_text.
Proof. vm_compute. by repeat split. Qed.

(** C9, amended. The context file is overwritten wholesale and read back
    through universal newlines: when [save_personal_context c] returns
    [True], the file holds exactly [c], whatever it held before, and a
    following [load_personal_context] returns [c] with every CR LF and every
    lone CR turned into LF, hence exactly [c] when [c] has no carriage
    return; and [get_personal_context] returns the empty string when the
    file, or its directory, does not exist. *)
Theorem personal_context_save_load :
  (forall (c : string) (w w' : World),
      DocumentManager.save_personal_context c w = (true, w') ->
      background_dir w' = Some (Some (Text c))
      /\ fst (DocumentManager.load_personal_context w') = Some (Py.universal_newlines c)
      /\ (Py.has_char Py.CR c = false ->
          fst (DocumentManager.load_personal_context w') = Some c
          /\ fst (JobSearchAI.get_personal_context w') = c))
  /\ (forall w : World,
        background_dir w = None \/ background_dir w = Some None ->
        JobSearchAI.get_personal_context w = (EmptyString, w)).
Proof.
  split.
  - intros c w w' Hsave.
    apply save_personal_context_true in Hsave as (Hfile & _).
    split; [exact Hfile|].
    unfold JobSearchAI.get_personal_context, DocumentManager.load_personal_context.
    rewrite Hfile. cbn. split; [done|].
    intros Hcr. rewrite universal_newlines_without_cr by done.
    split; [done|]. by destruct c.
  - intros w Hnone.
    unfold JobSearchAI.get_personal_context, DocumentManager.load_personal_context.
    by destruct Hnone as [-> | ->].
Qed.

Lemma personal_context_save_load_witness :
  let c := "Ten years of Python." in
  let w := fresh_world in
  let w' := snd (DocumentManager.save_personal_context c w) in
  DocumentManager.save_personal_context c w = (true, w')
  /\ Py.has_char Py.CR c = false
  /\ fst (DocumentManager.load_personal_context w') = Some c
  /\ fst (JobSearchAI.get_personal_context w') = c
  /\ JobSearchAI.get_personal_context fresh_world = (EmptyString, fresh_world).
Proof.
  pose proof personal_context_save_load as [Hsave Habsent].
  split; [reflexivity|]. split; [reflexivity|].
  destruct (Hsave "Ten years of Python." fresh_world
              (snd (DocumentManager.save_personal_context "Ten years of Python." fresh_world))
              eq_refl) as (_ & _ & Hback).
  destruct (Hback eq_refl) as [Hload Hget].
  split; [exact Hload|]. split; [exact Hget|].
  apply Habsent. by right.
Defined.

(** ** The engine: uninitialized and ready *)

Lemma setup_qa_chain_index (self : JobSearchAI.t) :
  DocumentManager.vectorstore (JobSearchAI.document_manager (JobSearchAI._setup_qa_chain self))
  = DocumentManager.vectorstore (JobSearchAI.document_manager self).
Proof.
  unfold JobSearchAI._setup_qa_chain, DocumentManager.get_vectorstore.
  by destruct (DocumentManager.vectorstore (JobSearchAI.document_manager self)) eqn:Hvs.
Qed.

Lemma setup_qa_chain_chain (self : JobSearchAI.t) :
  JobSearchAI.qa_chain (JobSearchAI._setup_qa_chain self)
  = match DocumentManager.vectorstore (JobSearchAI.document_manager self) with
    | Some index => Some (chain_over index)
    | None => JobSearchAI.qa_chain self
    end.
Proof.
  unfold JobSearchAI._setup_qa_chain, DocumentManager.get_vectorstore.
  by destruct (DocumentManager.vectorstore (JobSearchAI.document_manager self)) eqn:Hvs.
Qed.

Lemma setup_qa_chain_memory (self : JobSearchAI.t) :
  JobSearchAI.memory (JobSearchAI._setup_qa_chain self) = JobSearchAI.memory self.
Proof.
  unfold JobSearchAI._setup_qa_chain, DocumentManager.get_vectorstore.
  by destruct (DocumentManager.vectorstore (JobSearchAI.document_manager self)) eqn:Hvs.
Qed.

(** [create_vectorstore] never loses an index, and gains one exactly when
    there are documents and embedding them works. *)
Lemma create_vectorstore_index env (dm : DocumentManager.t) documents w :
  DocumentManager.vectorstore (fst (DocumentManager.create_vectorstore env dm documents w))
  = match documents, from_documents_error env documents with
    | _ :: _, None =>
        Some (match DocumentManager.vectorstore dm with
              | None => documents
              | Some existing => existing ++ documents
              end)
    | _, _ => DocumentManager.vectorstore dm
    end.
Proof.
  destruct documents as [|d ds]; [done|].
  unfold DocumentManager.create_vectorstore, DocumentManager.create_vectorstore_try.
  destruct (from_documents_error env (d :: ds)); [done|].
  by destruct (save_local_error env).
Qed.

Lemma create_vectorstore_keeps env (dm : DocumentManager.t) documents w :
  DocumentManager.vectorstore dm <> None ->
  DocumentManager.vectorstore (fst (DocumentManager.create_vectorstore env dm documents w))
  <> None.
Proof.
  intros Hsome. rewrite create_vectorstore_index.
  destruct documents; [done|]. by destruct (from_documents_error env _).
Qed.

Lemma add_documents_index env (self : JobSearchAI.t) file_paths w :
  DocumentManager.vectorstore
    (JobSearchAI.document_manager (fst (JobSearchAI.add_documents env self file_paths w)))
  = DocumentManager.vectorstore
      (fst (DocumentManager.create_vectorstore env (JobSearchAI.document_manager self)
              (fst (DocumentManager.process_documents env
                      (JobSearchAI.document_manager self) file_paths w))
              (snd (DocumentManager.process_documents env
                      (JobSearchAI.document_manager self) file_paths w)))).
Proof.
  unfold JobSearchAI.add_documents.
  destruct (DocumentManager.process_documents _ _ _ _) as [documents w1]. cbn [fst snd].
  destruct (DocumentManager.create_vectorstore _ _ _ _) as [dm w2]. cbn [fst snd].
  by rewrite setup_qa_chain_index.
Qed.

Lemma add_documents_chain env (self : JobSearchAI.t) file_paths w :
  JobSearchAI.qa_chain (fst (JobSearchAI.add_documents env self file_paths w))
  = match DocumentManager.vectorstore
            (JobSearchAI.document_manager
               (fst (JobSearchAI.add_documents env self file_paths w))) with
    | Some index => Some (chain_over index)
    | None => JobSearchAI.qa_chain self
    end.
Proof.
  unfold JobSearchAI.add_documents.
  destruct (DocumentManager.process_documents _ _ _ _) as [documents w1].
  destruct (DocumentManager.create_vectorstore _ _ _ _) as [dm w2]. cbn [fst].
  by rewrite setup_qa_chain_chain, setup_qa_chain_index.
Qed.

(** A query never touches the document manager or the chain. *)
Lemma ask_frame env (self : JobSearchAI.t) query w :
  let '(_, self', _) := JobSearchAI.ask env self query w in
  JobSearchAI.document_manager self' = JobSearchAI.document_manager self
  /\ JobSearchAI.qa_chain self' = JobSearchAI.qa_chain self.
Proof.
  unfold JobSearchAI.ask, JobSearchAI.call_chain.
  destruct (JobSearchAI.qa_chain self) as [c|] eqn:Hchain; [|done].
  destruct (JobSearchAI._get_personal_context w) as [context|e]; [|done].
  cbn zeta. by destruct (completion env _).
Qed.

Lemma ask_uninitialized env (self : JobSearchAI.t) query w :
  JobSearchAI.qa_chain self = None ->
  JobSearchAI.ask env self query w = (Returned JobSearchAI.upload_first, self, w).
Proof. intros Hnone. unfold JobSearchAI.ask. by rewrite Hnone. Qed.

(** What a step does to the document manager and the chain. *)
Lemma step_query_frame prompts env o (self : JobSearchAI.t) w :
  (forall ps, o <> JobSearchAI.AddDocuments ps) -> o <> JobSearchAI.ClearAllData ->
  JobSearchAI.document_manager (fst (JobSearchAI.step prompts env o self w))
  = JobSearchAI.document_manager self
  /\ JobSearchAI.qa_chain (fst (JobSearchAI.step prompts env o self w))
     = JobSearchAI.qa_chain self.
Proof.
  intros Hadd Hclear. destruct o as [ps|jd s|jd it|q jd|c| | |]; cbn [JobSearchAI.step];
    try done; try (by specialize (Hadd ps)).
  - unfold JobSearchAI.optimize_resume.
    match goal with |- context [JobSearchAI.ask env self ?q w] =>
      pose proof (ask_frame env self q w) as H end.
    by destruct (JobSearchAI.ask _ _ _ _) as [[r self'] w'].
  - unfold JobSearchAI.prepare_interview_questions.
    match goal with |- context [JobSearchAI.ask env self ?q w] =>
      pose proof (ask_frame env self q w) as H end.
    by destruct (JobSearchAI.ask _ _ _ _) as [[r self'] w'].
  - unfold JobSearchAI.draft_application_response.
    match goal with |- context [JobSearchAI.ask env self ?q w] =>
      pose proof (ask_frame env self q w) as H end.
    by destruct (JobSearchAI.ask _ _ _ _) as [[r self'] w'].
Qed.

Lemma init_chain (w0 : World) :
  JobSearchAI.qa_chain (fst (JobSearchAI.__init__ w0))
  = chain_over <$>
      DocumentManager.vectorstore (JobSearchAI.document_manager (fst (JobSearchAI.__init__ w0))).
Proof.
  unfold JobSearchAI.__init__, DocumentManager.__init__,
    DocumentManager.load_existing_vectorstore.
  by destruct (vectorstore_dir w0) as [[[index|e]|]|].
Qed.

(** The object after [clear_all_data]: the index is gone either way; the
    chain and the history are reset when the call returns and are as they
    were when it raises. *)
Lemma clear_all_data_fields (env : Env) (self : JobSearchAI.t) (w : World) :
  let result := fst (fst (JobSearchAI.clear_all_data env self w)) in
  let self' := snd (fst (JobSearchAI.clear_all_data env self w)) in
  DocumentManager.vectorstore (JobSearchAI.document_manager self') = None
  /\ (is_returned result = true ->
      JobSearchAI.qa_chain self' = None /\ JobSearchAI.memory self' = [])
  /\ (is_returned result = false ->
      JobSearchAI.qa_chain self' = JobSearchAI.qa_chain self
      /\ JobSearchAI.memory self' = JobSearchAI.memory self).
Proof.
  unfold JobSearchAI.clear_all_data.
  pose proof (clear_vectorstore_object env (JobSearchAI.document_manager self) w) as Hobj.
  destruct (DocumentManager.clear_vectorstore env (JobSearchAI.document_manager self) w)
    as [[[u|e] dm] w']; cbn in *; repeat split; done.
Qed.

Lemma step_clear prompts env (self : JobSearchAI.t) (w : World) :
  fst (JobSearchAI.step prompts env JobSearchAI.ClearAllData self w)
  = snd (fst (JobSearchAI.clear_all_data env self w)).
Proof.
  cbn [JobSearchAI.step]. by destruct (JobSearchAI.clear_all_data env self w) as [[r s] w'].
Qed.

(** Rewrites the step in the goal with [step_query_frame]; the two side
    conditions hold by the constructor of the operation. *)
Ltac query_frame :=
  match goal with
  | |- context [JobSearchAI.step ?p ?e ?o ?s ?w0] =>
      let Hdm := fresh "Hdm" in
      let Hqa := fresh "Hqa" in
      destruct (step_query_frame p e o s w0) as [Hdm Hqa]; [done|done|];
      rewrite ?Hdm, ?Hqa
  end.

(** Whenever the document manager holds an index, the chain is the one
    [_setup_qa_chain] builds over that index. *)
Lemma reachable_index_chain prompts (self : JobSearchAI.t) (w : World) :
  JobSearchAI.reachable prompts self w ->
  forall index,
    DocumentManager.vectorstore (JobSearchAI.document_manager self) = Some index ->
    JobSearchAI.qa_chain self = Some (chain_over index).
Proof.
  induction 1 as [w0|env o self w Hreach IH]; intros index Hvs.
  { by rewrite init_chain, Hvs. }
  destruct o as [ps|jd s|jd it|q jd|c| | |].
  1: { cbn [JobSearchAI.step] in *. by rewrite add_documents_chain, Hvs. }
  6: { rewrite step_clear in Hvs.
       destruct (clear_all_data_fields env self w) as [Hnone _]. congruence. }
  all: revert Hvs; query_frame; apply IH.
Qed.

(** Before any ingestion has succeeded there is neither index nor chain. *)
Lemma before_ingestion_uninitialized prompts (self : JobSearchAI.t) (w : World) :
  JobSearchAI.before_ingestion prompts self w ->
  JobSearchAI.qa_chain self = None
  /\ DocumentManager.vectorstore (JobSearchAI.document_manager self) = None.
Proof.
  induction 1 as [w0 Hvs|env o self w Hbefore [IHqa IHvs] Hvs].
  { split; [|exact Hvs]. by rewrite init_chain, Hvs. }
  split; [|exact Hvs].
  destruct o as [ps|jd s|jd it|q jd|c| | |].
  1: { cbn [JobSearchAI.step] in *. by rewrite add_documents_chain, Hvs. }
  6: { rewrite step_clear.
       destruct (clear_all_data_fields env self w) as (_ & Hret & Hraise).
       destruct (is_returned (fst (fst (JobSearchAI.clear_all_data env self w)))).
       - by destruct (Hret eq_refl).
       - destruct (Hraise eq_refl) as [-> _]. exact IHqa. }
  all: by query_frame.
Qed.

Lemma before_ingestion_reachable prompts (self : JobSearchAI.t) (w : World) :
  JobSearchAI.before_ingestion prompts self w -> JobSearchAI.reachable prompts self w.
Proof.
  induction 1 as [w0 Hvs|env o self w Hbefore IH Hvs].
  - apply JobSearchAI.reach_init.
  - by apply JobSearchAI.reach_step.
Qed.

Lemma step_preserves_ready_only prompts env o (self : JobSearchAI.t) (w : World) :
  (o = JobSearchAI.ClearAllData -> clear_completes env self w) ->
  ready_only_with_index self ->
  ready_only_with_index (fst (JobSearchAI.step prompts env o self w)).
Proof.
  unfold ready_only_with_index. intros Hcompletes Hinv.
  destruct o as [ps|jd s|jd it|q jd|c| | |].
  7: { rewrite step_clear.
       destruct (clear_all_data_fields env self w) as (_ & Hret & _).
       by destruct (Hret (Hcompletes eq_refl)) as [-> _]. }
  1: { cbn [JobSearchAI.step]. rewrite add_documents_chain.
       destruct (DocumentManager.vectorstore
                   (JobSearchAI.document_manager
                      (fst (JobSearchAI.add_documents env self ps w))))
         as [index|] eqn:Hvs; [done|].
       intros Hready. apply Hinv in Hready. rewrite add_documents_index in Hvs.
       exfalso. eapply create_vectorstore_keeps; [exact Hready|exact Hvs]. }
  all: by query_frame.
Qed.

(** C8, the defect. [clear_vectorstore] drops the index of the object
    before it calls [shutil.rmtree], and nothing catches what that call
    raises.  In the ready state after one answered query, with a
    vector-store directory that cannot be removed, [clear_all_data] raises:
    the index of the object is gone while the chain and the history are
    those of before, so the engine is ready without an index, and the next
    query is sent to the completion service with the old history. *)
Theorem aborted_clear_leaves_chain_without_index :
  let self := fst talked_state in
  let w := snd talked_state in
  let cleared := JobSearchAI.clear_all_data mounted_env self w in
  let self' := snd (fst cleared) in
  let w' := snd cleared in
  let retried :=
    JobSearchAI.optimize_resume sample_prompts sample_env self'
      "Backend engineer" None w' in
  JobSearchAI.reachable sample_prompts self w
  /\ ready_only_with_index self
  /\ (self', w')
     = JobSearchAI.step sample_prompts mounted_env JobSearchAI.ClearAllData self w
  /\ fst (fst cleared) = Raised (OSError "[Errno 16] Device or resource busy")
  /\ DocumentManager.vectorstore (JobSearchAI.document_manager self') = None
  /\ JobSearchAI.qa_chain self' = JobSearchAI.qa_chain self
  /\ JobSearchAI.qa_chain self' <> None
  /\ JobSearchAI.memory self' = JobSearchAI.memory self
  /\ length (JobSearchAI.memory self') = 1
  /\ ~ ready_only_with_index self'
  /\ fst (fst retried) = Returned "Lead with the Python projects."
  /\ length (completion_log (snd retried)) = S (length (completion_log w'))
  /\ map req_history (completion_log (snd retried)) = [[]; JobSearchAI.memory self].
Proof.
  intros self w cleared self' w' retried.
  assert (Hreach : JobSearchAI.reachable sample_prompts self w).
  { exact (JobSearchAI.reach_step sample_prompts sample_env
             (JobSearchAI.OptimizeResume "Backend engineer" None) _ _
             (JobSearchAI.reach_step sample_prompts sample_env
                (JobSearchAI.AddDocuments ["context/uploads/cv.txt"]) _ _
                (JobSearchAI.reach_init sample_prompts fresh_world))). }
  assert (Hchain : JobSearchAI.qa_chain self' <> None) by (vm_compute; discriminate).
  assert (Hindex : DocumentManager.vectorstore (JobSearchAI.document_manager self') = None)
    by (vm_compute; reflexivity).
  split; [exact Hreach|].
  split; [intros _; vm_compute; discriminate|].
  split; [vm_compute; reflexivity|].
  split; [vm_compute; reflexivity|].
  split; [exact Hindex|].
  split; [vm_compute; reflexivity|].
  split; [exact Hchain|].
  split; [vm_compute; reflexivity|].
  split; [vm_compute; reflexivity|].
  split; [intros Hinv; exact (Hinv Hchain Hindex)|].
  split; [vm_compute; reflexivity|].
  split; vm_compute; reflexivity.
Qed.

(** ** Queries *)

(** C1. A search on a document manager without an index returns the empty
    list.  In every state of a session in which no ingestion has succeeded
    yet, and more generally whenever there is no chain, each of the three
    operations returns "Please upload your resume and experience documents
    first." and hands back the application and the world as they were:
    nothing is sent to the completion service and nothing is printed. *)
Theorem no_index_fixed_response (prompts : Prompts) :
  (forall env (dm : DocumentManager.t) query k,
      DocumentManager.vectorstore dm = None ->
      DocumentManager.search_documents env dm query k = [])
  /\ (forall (self : JobSearchAI.t) (w : World),
        JobSearchAI.qa_chain self = None
        \/ JobSearchAI.before_ingestion prompts self w ->
        forall env job_description sections interview_type question,
          JobSearchAI.optimize_resume prompts env self job_description sections w
          = (Returned "Please upload your resume and experience documents first.", self, w)
          /\ JobSearchAI.prepare_interview_questions prompts env self
               job_description interview_type w
             = (Returned "Please upload your resume and experience documents first.", self, w)
          /\ JobSearchAI.draft_application_response prompts env self
               question job_description w
             = (Returned "Please upload your resume and experience documents first.", self, w)).
Proof.
  split.
  - intros env dm query k Hnone. unfold DocumentManager.search_documents.
    by rewrite Hnone.
  - intros self w Hstate env jd sections it q.
    assert (Hchain : JobSearchAI.qa_chain self = None).
    { destruct Hstate as [Hnone|Hbefore]; [done|].
      by apply before_ingestion_uninitialized in Hbefore as [? _]. }
    unfold JobSearchAI.optimize_resume, JobSearchAI.prepare_interview_questions,
      JobSearchAI.draft_application_response.
    by rewrite !ask_uninitialized.
Qed.

Lemma no_index_fixed_response_witness :
  let aborted :=
    JobSearchAI.step sample_prompts mounted_env JobSearchAI.ClearAllData
      fresh_ai fresh_world in
  DocumentManager.vectorstore (JobSearchAI.document_manager fresh_ai) = None
  /\ DocumentManager.search_documents sample_env
       (JobSearchAI.document_manager fresh_ai) "python" 4 = []
  /\ JobSearchAI.before_ingestion sample_prompts (fst aborted) (snd aborted)
  /\ JobSearchAI.optimize_resume sample_prompts sample_env (fst aborted)
       "Backend engineer" None (snd aborted)
     = (Returned "Please upload your resume and experience documents first.",
        fst aborted, snd aborted).
Proof.
  intros aborted.
  destruct (no_index_fixed_response sample_prompts) as [Hsearch Hops].
  assert (Hbefore : JobSearchAI.before_ingestion sample_prompts (fst aborted) (snd aborted)).
  { apply JobSearchAI.before_step; [|reflexivity].
    exact (JobSearchAI.before_init sample_prompts fresh_world eq_refl). }
  split; [reflexivity|].
  split; [apply Hsearch; reflexivity|].
  split; [exact Hbefore|].
  destruct (Hops (fst aborted) (snd aborted) (or_intror Hbefore)
              sample_env "Backend engineer" None "general" "Why us?") as (Hopt & _).
  exact Hopt.
Defined.

Lemma ask_remote_failure env (self : JobSearchAI.t) query (w : World) c :
  JobSearchAI.qa_chain self = Some c ->
  (forall req, is_returned (completion env req) = false) ->
  let '(r, self', w') := JobSearchAI.ask env self query w in
  is_returned r = false
  /\ self' = self
  /\ same_storage w w'
  /\ (forall context,
        JobSearchAI._get_personal_context w = Returned context ->
        exists req,
          r = completion env req
          /\ req_history req = JobSearchAI.memory self
          /\ completion_log w' = completion_log w ++ [req]).
Proof.
  intros Hchain Hfail. unfold JobSearchAI.ask. rewrite Hchain.
  destruct (JobSearchAI._get_personal_context w) as [context|e].
  - unfold JobSearchAI.call_chain.
    match goal with |- context [completion env ?r] =>
      set (req := r); pose proof (Hfail req) as Hreq
    end.
    destruct (completion env req) as [answer|e] eqn:Hcompl; [discriminate|].
    cbn zeta.
    assert (Hlog : forall w1,
               (w1 = prints (verbose_output env req (Raised e)) (log_request req w)
                \/ w1 = log_request req w) ->
               same_storage w w1 /\ completion_log w1 = completion_log w ++ [req]).
    { intros w1 [->| ->].
      - split; [|by rewrite completion_log_prints].
        destruct (same_storage_prints (verbose_output env req (Raised e))
                    (log_request req w)) as (Hv & Hu & Hb).
        by repeat split.
      - by repeat split. }
    destruct (Hlog (if JobSearchAI.chain_verbose c
                    then prints (verbose_output env req (Raised e)) (log_request req w)
                    else log_request req w)) as [Hst Hcl].
    { destruct (JobSearchAI.chain_verbose c); [by left|by right]. }
    split; [done|]. split; [done|]. split; [exact Hst|].
    intros ? _. exists req. by rewrite Hcompl.
  - split; [done|]. split; [done|]. split; [apply same_storage_refl|]. discriminate.
Qed.

(** C2. With the engine ready and the completion service failing, each of
    the three operations raises to its caller and hands back the application
    exactly as it was, its history included, so that a retry starts from the
    history the failed call started from; nothing durable changes.  When the
    personal context can be read, the exception is the one the completion
    call raised on the single request that was sent, whose history is the
    history before the call. *)
Theorem remote_failure_keeps_history
    (prompts : Prompts) (env : Env) (self : JobSearchAI.t) (w : World)
    (c : JobSearchAI.chain) :
  JobSearchAI.qa_chain self = Some c ->
  (forall req, is_returned (completion env req) = false) ->
  forall job_description sections interview_type question result,
    result ∈ [ JobSearchAI.optimize_resume prompts env self job_description sections w;
               JobSearchAI.prepare_interview_questions prompts env self
                 job_description interview_type w;
               JobSearchAI.draft_application_response prompts env self
                 question job_description w ] ->
    let '(r, self', w') := result in
    is_returned r = false
    /\ self' = self
    /\ JobSearchAI.memory self' = JobSearchAI.memory self
    /\ same_storage w w'
    /\ (forall context,
          JobSearchAI._get_personal_context w = Returned context ->
          exists req,
            r = completion env req
            /\ req_history req = JobSearchAI.memory self
            /\ completion_log w' = completion_log w ++ [req]).
Proof.
  intros Hchain Hfail jd sections it q result Hin.
  assert (Hask : exists query, result = JobSearchAI.ask env self query w).
  { repeat (apply elem_of_cons in Hin as [->|Hin]); [eexists; reflexivity..|].
    by apply elem_of_nil in Hin. }
  destruct Hask as [query ->].
  pose proof (ask_remote_failure env self query w c Hchain Hfail) as H.
  destruct (JobSearchAI.ask env self query w) as [[r self'] w'].
  destruct H as (Hr & -> & Hst & Hreq).
  split; [exact Hr|]. split; [reflexivity|]. split; [reflexivity|].
  split; [exact Hst|exact Hreq].
Qed.

Lemma remote_failure_keeps_history_witness :
  let self := fst ready_state in
  let w := snd ready_state in
  let c := chain_over [DocumentManager.tag_source "context/uploads/cv.txt" sample_doc] in
  JobSearchAI.qa_chain self = Some c
  /\ (forall req, is_returned (completion offline_env req) = false)
  /\ let '(r, self', w') :=
       JobSearchAI.optimize_resume sample_prompts offline_env self
         "Backend engineer" None w in
     is_returned r = false
     /\ self' = self
     /\ JobSearchAI.memory self' = JobSearchAI.memory self
     /\ same_storage w w'.
Proof.
  assert (Hchain : JobSearchAI.qa_chain (fst ready_state)
                   = Some (chain_over
                             [DocumentManager.tag_source "context/uploads/cv.txt" sample_doc])).
  { vm_compute. reflexivity. }
  assert (Hfail : forall req, is_returned (completion offline_env req) = false).
  { intros req. reflexivity. }
  split; [exact Hchain|]. split; [exact Hfail|].
  pose proof (remote_failure_keeps_history sample_prompts offline_env
                (fst ready_state) (snd ready_state) _ Hchain Hfail
                "Backend engineer" None "general" "Why us?"
                (JobSearchAI.optimize_resume sample_prompts offline_env (fst ready_state)
                   "Backend engineer" None (snd ready_state))
                (list_elem_of_here _ _)) as H.
  destruct (JobSearchAI.optimize_resume sample_prompts offline_env (fst ready_state)
              "Backend engineer" None (snd ready_state)) as [[r self'] w'].
  destruct H as (Hr & Hself & Hmem & Hst & _).
  split; [exact Hr|]. split; [exact Hself|]. split; [exact Hmem|]. exact Hst.
Defined.

(** A failed call followed by a retry that the service answers: one turn is
    recorded, and both requests carried the empty history. *)
Example retry_after_failure :
  let '(r1, s1, w1) :=
    JobSearchAI.optimize_resume sample_prompts offline_env (fst ready_state)
      "Backend engineer" None (snd ready_state) in
  let '(r2, s2, w2) :=
    JobSearchAI.optimize_resume sample_prompts sample_env s1 "Backend engineer" None w1 in
  r1 = Raised (OSError "Connection error.")
  /\ JobSearchAI.memory s1 = []
  /\ r2 = Returned "Lead with the Python projects."
  /\ map snd (JobSearchAI.memory s2) = ["Lead with the Python projects."]
  /\ map req_history (completion_log w2) = [[]; []].
Proof. vm_compute. repeat split; reflexivity. Qed.

(** * Further properties of the code *)

(** ** Creating and persisting the index *)

(** X1. [create_vectorstore] with documents that embed and an index that
    saves: the documents are appended to the index in memory (they are the
    whole index when there was none), the directory holds exactly the index
    in memory, and one success line is printed. *)
Theorem create_vectorstore_appends_and_persists
    (env : Env) (dm : DocumentManager.t) (documents : list Document) (w : World) :
  documents <> [] ->
  from_documents_error env documents = None ->
  save_local_error env = None ->
  let '(dm', w') := DocumentManager.create_vectorstore env dm documents w in
  DocumentManager.vectorstore dm'
  = Some (default [] (DocumentManager.vectorstore dm) ++ documents)
  /\ vectorstore_dir w'
     = Some (Some (Returned (default [] (DocumentManager.vectorstore dm) ++ documents)))
  /\ upload_dir w' = upload_dir w
  /\ background_dir w' = background_dir w
  /\ stdout w'
     = stdout w ++ ["Successfully processed " +:+ pretty (length documents)
                    +:+ " document chunks"].
Proof.
  intros Hne Hemb Hsave. destruct documents as [|d ds]; [done|].
  unfold DocumentManager.create_vectorstore, DocumentManager.create_vectorstore_try.
  rewrite Hemb, Hsave. cbn.
  destruct (DocumentManager.vectorstore dm); by repeat split.
Qed.

Lemma create_vectorstore_appends_and_persists_witness :
  let dm := fst (DocumentManager.__init__ busy_world) in
  let documents := [sample_doc; sample_doc] in
  documents <> []
  /\ from_documents_error sample_env documents = None
  /\ save_local_error sample_env = None
  /\ let '(dm', w') :=
       DocumentManager.create_vectorstore sample_env dm documents
         (snd (DocumentManager.__init__ busy_world)) in
     DocumentManager.vectorstore dm' = Some [sample_doc; sample_doc; sample_doc]
     /\ vectorstore_dir w' = Some (Some (Returned [sample_doc; sample_doc; sample_doc])).
Proof.
  split; [discriminate|]. split; [reflexivity|]. split; [reflexivity|].
  pose proof (create_vectorstore_appends_and_persists sample_env
                (fst (DocumentManager.__init__ busy_world)) [sample_doc; sample_doc]
                (snd (DocumentManager.__init__ busy_world))
                ltac:(discriminate) eq_refl eq_refl) as H.
  destruct (DocumentManager.create_vectorstore _ _ _ _) as [dm' w'].
  destruct H as (Hmem & Hdisk & _). split; [exact Hmem|exact Hdisk].
Defined.

(** X2. When [create_vectorstore] fails.  If embedding the documents raises, the
    object is returned as it was, nothing is saved, and only the error line
    is printed.  If embedding works and saving raises, the documents are
    already in the index in memory, and the error line is printed in place
    of the success line. *)
Theorem create_vectorstore_failures
    (env : Env) (dm : DocumentManager.t) (documents : list Document) (w : World) :
  documents <> [] ->
  (forall e,
      from_documents_error env documents = Some e ->
      DocumentManager.create_vectorstore env dm documents w
      = (dm, print ("Error creating vector store: " +:+ exn_str e) w))
  /\ (forall e,
        from_documents_error env documents = None ->
        save_local_error env = Some e ->
        let '(dm', w') := DocumentManager.create_vectorstore env dm documents w in
        DocumentManager.vectorstore dm'
        = Some (default [] (DocumentManager.vectorstore dm) ++ documents)
        /\ stdout w' = stdout w ++ ["Error creating vector store: " +:+ exn_str e]).
Proof.
  intros Hne. destruct documents as [|d ds]; [done|].
  unfold DocumentManager.create_vectorstore, DocumentManager.create_vectorstore_try.
  split.
  - intros e Hemb. by rewrite Hemb.
  - intros e Hemb Hsave. rewrite Hemb, Hsave. cbn [fst snd].
    split; [by destruct (DocumentManager.vectorstore dm)|done].
Qed.

Lemma create_vectorstore_failures_witness :
  let dm := fst (DocumentManager.__init__ busy_world) in
  let w := snd (DocumentManager.__init__ busy_world) in
  [sample_doc; sample_doc] <> []
  /\ DocumentManager.create_vectorstore no_embedding_env dm [sample_doc; sample_doc] w
     = (dm, print "Error creating vector store: Connection error." w)
  /\ let '(dm', w') :=
       DocumentManager.create_vectorstore readonly_env dm [sample_doc; sample_doc] w in
     DocumentManager.vectorstore dm' = Some [sample_doc; sample_doc; sample_doc]
     /\ stdout w'
        = stdout w ++ ["Error creating vector store: Read-only file system"].
Proof.
  split; [discriminate|].
  destruct (create_vectorstore_failures no_embedding_env
              (fst (DocumentManager.__init__ busy_world)) [sample_doc; sample_doc]
              (snd (DocumentManager.__init__ busy_world)) ltac:(discriminate))
    as [Hemb _].
  destruct (create_vectorstore_failures readonly_env
              (fst (DocumentManager.__init__ busy_world)) [sample_doc; sample_doc]
              (snd (DocumentManager.__init__ busy_world)) ltac:(discriminate))
    as [_ Hsave].
  split; [exact (Hemb (OSError "Connection error.") eq_refl)|].
  exact (Hsave (OSError "Read-only file system") eq_refl eq_refl).
Defined.

(** What [process_documents] and [create_vectorstore] leave alone. *)
Lemma create_vectorstore_frame env (dm : DocumentManager.t) documents w :
  let w' := snd (DocumentManager.create_vectorstore env dm documents w) in
  upload_dir w' = upload_dir w
  /\ background_dir w' = background_dir w
  /\ completion_log w' = completion_log w
  /\ DocumentManager.text_splitter
       (fst (DocumentManager.create_vectorstore env dm documents w))
     = DocumentManager.text_splitter dm.
Proof.
  destruct documents as [|d ds]; [done|].
  unfold DocumentManager.create_vectorstore, DocumentManager.create_vectorstore_try.
  destruct (from_documents_error env (d :: ds)); [done|].
  by destruct (save_local_error env).
Qed.

Lemma add_documents_unfold env (self : JobSearchAI.t) file_paths w :
  JobSearchAI.add_documents env self file_paths w
  = (JobSearchAI._setup_qa_chain
       (JobSearchAI.set_document_manager
          (fst (DocumentManager.create_vectorstore env (JobSearchAI.document_manager self)
                  (split_documents
                     (DocumentManager.text_splitter (JobSearchAI.document_manager self))
                     (loaded env file_paths))
                  (prints (load_errors env file_paths) w)))
          self),
     snd (DocumentManager.create_vectorstore env (JobSearchAI.document_manager self)
            (split_documents
               (DocumentManager.text_splitter (JobSearchAI.document_manager self))
               (loaded env file_paths))
            (prints (load_errors env file_paths) w))).
Proof.
  unfold JobSearchAI.add_documents. rewrite process_documents_spec.
  by destruct (DocumentManager.create_vectorstore _ _ _ _).
Qed.

(** X3. [add_documents] keeps the conversation, the uploads and the context
    file, sends nothing to the completion service, and only ever appends to
    the index: what was in it stays, in order, at the front, and the chunk
    count grows by the number of chunks of the batch when embedding them
    works and not at all otherwise. *)
Theorem add_documents_only_appends
    (env : Env) (self : JobSearchAI.t) (file_paths : list string) (w : World) :
  let chunks :=
    fst (DocumentManager.process_documents env (JobSearchAI.document_manager self)
           file_paths w) in
  let '(self', w') := JobSearchAI.add_documents env self file_paths w in
  JobSearchAI.memory self' = JobSearchAI.memory self
  /\ upload_dir w' = upload_dir w
  /\ background_dir w' = background_dir w
  /\ completion_log w' = completion_log w
  /\ DocumentManager.get_document_count w' = DocumentManager.get_document_count w
  /\ DocumentManager.vectorstore (JobSearchAI.document_manager self')
     = match chunks with
       | [] => DocumentManager.vectorstore (JobSearchAI.document_manager self)
       | _ :: _ =>
           match from_documents_error env chunks with
           | None =>
               Some (default []
                       (DocumentManager.vectorstore (JobSearchAI.document_manager self))
                     ++ chunks)
           | Some _ => DocumentManager.vectorstore (JobSearchAI.document_manager self)
           end
       end
  /\ JobSearchAI.get_document_count self'
     = JobSearchAI.get_document_count self
       + match from_documents_error env chunks with
         | None => length chunks
         | Some _ => 0
         end.
Proof.
  intros chunks. subst chunks. rewrite process_documents_spec. cbn [fst].
  rewrite add_documents_unfold.
  set (chunks := split_documents _ (loaded env file_paths)).
  set (w1 := prints (load_errors env file_paths) w).
  destruct (create_vectorstore_frame env (JobSearchAI.document_manager self) chunks w1)
    as (Hup & Hbg & Hlog & _).
  pose proof (create_vectorstore_index env (JobSearchAI.document_manager self) chunks w1)
    as Hidx.
  destruct (DocumentManager.create_vectorstore env _ chunks w1) as [dm' w'].
  cbn [fst snd] in *.
  destruct (same_storage_prints (load_errors env file_paths) w) as (_ & Hup1 & Hbg1).
  fold w1 in Hup1, Hbg1.
  assert (Hvs : DocumentManager.vectorstore
                  (JobSearchAI.document_manager
                     (JobSearchAI._setup_qa_chain (JobSearchAI.set_document_manager dm' self)))
                = DocumentManager.vectorstore dm').
  { by rewrite setup_qa_chain_index. }
  split; [by rewrite setup_qa_chain_memory|].
  split; [congruence|]. split; [congruence|].
  split; [rewrite Hlog; apply completion_log_prints|].
  split; [unfold DocumentManager.get_document_count; by rewrite Hup, Hup1|].
  assert (Hidx' : DocumentManager.vectorstore dm'
    = match chunks with
      | [] => DocumentManager.vectorstore (JobSearchAI.document_manager self)
      | _ :: _ =>
          match from_documents_error env chunks with
          | None =>
              Some (default []
                      (DocumentManager.vectorstore (JobSearchAI.document_manager self))
                    ++ chunks)
          | Some _ => DocumentManager.vectorstore (JobSearchAI.document_manager self)
          end
      end).
  { rewrite Hidx. destruct chunks; [done|].
    destruct (from_documents_error env _); [done|].
    by destruct (DocumentManager.vectorstore (JobSearchAI.document_manager self)). }
  split; [rewrite Hvs; exact Hidx'|].
  unfold JobSearchAI.get_document_count, DocumentManager.get_vectorstore.
  rewrite Hvs, Hidx'.
  destruct (DocumentManager.vectorstore (JobSearchAI.document_manager self))
    as [old|]; destruct chunks as [|c cs];
    destruct (from_documents_error env _);
    cbn [default]; rewrite ?length_app; simpl; lia.
Qed.

(** ** Restarting the application *)

(** X4. The constructor never changes anything durable and starts with an empty
    history; the engine it returns is ready exactly when the vector-store
    directory holds an index that loads, and then it retrieves over that
    index. *)
Theorem constructor_ready_iff_index_loads (w : World) :
  let '(self, w') := JobSearchAI.__init__ w in
  same_storage w w'
  /\ completion_log w' = completion_log w
  /\ JobSearchAI.memory self = []
  /\ (JobSearchAI.qa_chain self <> None
      <-> exists index, vectorstore_dir w = Some (Some (Returned index)))
  /\ (forall index,
        vectorstore_dir w = Some (Some (Returned index)) ->
        DocumentManager.vectorstore (JobSearchAI.document_manager self) = Some index
        /\ JobSearchAI.qa_chain self = Some (chain_over index)).
Proof.
  unfold JobSearchAI.__init__, DocumentManager.__init__,
    DocumentManager.load_existing_vectorstore.
  destruct (vectorstore_dir w) as [[[index|e]|]|] eqn:Hdir; cbn;
    rewrite ?Hdir; repeat split; naive_solver.
Qed.

(** X5. A restart after an ingestion whose chunks embed and whose index saves:
    the constructor run on the world the ingestion left finds the index the
    session had, and builds the chain the session had; the history is not
    restored. *)
Theorem restart_after_ingestion
    (env : Env) (self : JobSearchAI.t) (file_paths : list string) (w : World) :
  let chunks :=
    fst (DocumentManager.process_documents env (JobSearchAI.document_manager self)
           file_paths w) in
  chunks <> [] ->
  from_documents_error env chunks = None ->
  save_local_error env = None ->
  let '(self', w') := JobSearchAI.add_documents env self file_paths w in
  let '(restarted, _) := JobSearchAI.__init__ w' in
  DocumentManager.vectorstore (JobSearchAI.document_manager restarted)
  = DocumentManager.vectorstore (JobSearchAI.document_manager self')
  /\ JobSearchAI.qa_chain restarted = JobSearchAI.qa_chain self'
  /\ JobSearchAI.qa_chain restarted <> None
  /\ JobSearchAI.memory restarted = [].
Proof.
  intros chunks Hne Hemb Hsave. subst chunks.
  rewrite process_documents_spec in Hne, Hemb. cbn [fst] in Hne, Hemb.
  rewrite add_documents_unfold.
  set (chunks := split_documents _ (loaded env file_paths)) in *.
  set (w1 := prints (load_errors env file_paths) w).
  assert (Hcreate :
    exists index,
      DocumentManager.vectorstore
        (fst (DocumentManager.create_vectorstore env
                (JobSearchAI.document_manager self) chunks w1)) = Some index
      /\ vectorstore_dir
           (snd (DocumentManager.create_vectorstore env
                   (JobSearchAI.document_manager self) chunks w1))
         = Some (Some (Returned index))).
  { destruct chunks as [|c cs]; [done|].
    unfold DocumentManager.create_vectorstore, DocumentManager.create_vectorstore_try.
    rewrite Hemb, Hsave. cbn. eexists. split; reflexivity. }
  destruct Hcreate as (index & Hmem & Hdisk).
  destruct (DocumentManager.create_vectorstore env _ chunks w1) as [dm' w'].
  cbn [fst snd] in *.
  unfold JobSearchAI.__init__, DocumentManager.__init__,
    DocumentManager.load_existing_vectorstore.
  rewrite Hdisk. cbn.
  rewrite setup_qa_chain_index, setup_qa_chain_chain. cbn. rewrite Hmem.
  by repeat split.
Qed.

Lemma restart_after_ingestion_witness :
  let chunks :=
    fst (DocumentManager.process_documents sample_env
           (JobSearchAI.document_manager fresh_ai) ["context/uploads/cv.txt"] fresh_world) in
  chunks <> []
  /\ from_documents_error sample_env chunks = None
  /\ save_local_error sample_env = None
  /\ let '(self', w') :=
       JobSearchAI.add_documents sample_env fresh_ai ["context/uploads/cv.txt"] fresh_world in
     let '(restarted, _) := JobSearchAI.__init__ w' in
     DocumentManager.vectorstore (JobSearchAI.document_manager restarted)
     = DocumentManager.vectorstore (JobSearchAI.document_manager self')
     /\ JobSearchAI.qa_chain restarted = JobSearchAI.qa_chain self'
     /\ JobSearchAI.qa_chain restarted <> None
     /\ JobSearchAI.memory restarted = [].
Proof.
  assert (Hne : fst (DocumentManager.process_documents sample_env
                       (JobSearchAI.document_manager fresh_ai)
                       ["context/uploads/cv.txt"] fresh_world) <> []).
  { vm_compute. discriminate. }
  split; [exact Hne|]. split; [reflexivity|]. split; [reflexivity|].
  exact (restart_after_ingestion sample_env fresh_ai ["context/uploads/cv.txt"]
           fresh_world Hne eq_refl eq_refl).
Defined.

(** X6. A restart after a [clear_all_data] that returned: the constructor run
    on the world the clear left returns an uninitialized engine with no
    index, and prints nothing. *)
Theorem restart_after_clear (env : Env) (self : JobSearchAI.t) (w : World) :
  clear_completes env self w ->
  let w' := snd (JobSearchAI.clear_all_data env self w) in
  let '(restarted, w'') := JobSearchAI.__init__ w' in
  w'' = w'
  /\ DocumentManager.vectorstore (JobSearchAI.document_manager restarted) = None
  /\ JobSearchAI.qa_chain restarted = None
  /\ JobSearchAI.memory restarted = []
  /\ JobSearchAI.get_document_count restarted = 0.
Proof.
  unfold clear_completes. intros Hcompletes.
  unfold JobSearchAI.clear_all_data in *.
  destruct (DocumentManager.clear_vectorstore env (JobSearchAI.document_manager self) w)
    as [[[u|e] dm] w'] eqn:Hclear; [|discriminate].
  apply clear_vectorstore_world in Hclear as (_ & Hdir & _).
  cbn [snd].
  unfold JobSearchAI.__init__, DocumentManager.__init__,
    DocumentManager.load_existing_vectorstore.
  rewrite Hdir. by repeat split.
Qed.

Lemma restart_after_clear_witness :
  clear_completes sample_env (fst talked_state) (snd talked_state)
  /\ JobSearchAI.qa_chain (fst talked_state) <> None
  /\ let w' := snd (JobSearchAI.clear_all_data sample_env (fst talked_state)
                      (snd talked_state)) in
     let '(restarted, w'') := JobSearchAI.__init__ w' in
     w'' = w'
     /\ DocumentManager.vectorstore (JobSearchAI.document_manager restarted) = None
     /\ JobSearchAI.qa_chain restarted = None
     /\ JobSearchAI.memory restarted = []
     /\ JobSearchAI.get_document_count restarted = 0.
Proof.
  assert (Hcompletes : clear_completes sample_env (fst talked_state) (snd talked_state))
    by (vm_compute; reflexivity).
  split; [exact Hcompletes|]. split; [vm_compute; discriminate|].
  exact (restart_after_clear sample_env (fst talked_state) (snd talked_state) Hcompletes).
Defined.

(** ** Clearing *)

Lemma filter_not_file_idemp (entries : list (string * bool)) :
  filter (fun f => snd f = false) (filter (fun f => snd f = false) entries)
  = filter (fun f => snd f = false) entries.
Proof.
  induction entries as [|[name isfile] entries IH]; [done|].
  destruct isfile.
  - by rewrite (filter_cons_False (fun f => snd f = false)).
  - rewrite (filter_cons_True (fun f => snd f = false)) by done.
    rewrite (filter_cons_True (fun f => snd f = false)) by done.
    by rewrite IH.
Qed.

Lemma remove_files_no_file (env : Env) (entries : list (string * bool)) :
  DocumentManager.remove_files env (filter (fun f => snd f = false) entries)
  = (filter (fun f => snd f = false) entries, None).
Proof.
  induction entries as [|[name isfile] entries IH]; [done|].
  destruct isfile.
  - by rewrite (filter_cons_False (fun f => snd f = false)).
  - rewrite (filter_cons_True (fun f => snd f = false)) by done.
    cbn [DocumentManager.remove_files]. by rewrite IH.
Qed.

(** X7. A [clear_all_data] that returns leaves the personal context file, what
    was printed and the record of sent requests alone, and keeps in the
    upload directory exactly the entries that are not regular files, in
    their order; and a second clear, whatever the collaborators answer,
    returns and changes nothing more. *)
Theorem clear_all_data_spares_and_is_idempotent
    (env : Env) (self : JobSearchAI.t) (w : World) :
  clear_completes env self w ->
  let '(_, self', w') := JobSearchAI.clear_all_data env self w in
  background_dir w' = background_dir w
  /\ stdout w' = stdout w
  /\ completion_log w' = completion_log w
  /\ upload_dir w' = filter (fun f => snd f = false) <$> upload_dir w
  /\ DocumentManager.text_splitter (JobSearchAI.document_manager self')
     = DocumentManager.text_splitter (JobSearchAI.document_manager self)
  /\ forall env2, JobSearchAI.clear_all_data env2 self' w' = (Returned tt, self', w').
Proof.
  unfold clear_completes, JobSearchAI.clear_all_data. intros Hcompletes.
  destruct (DocumentManager.clear_vectorstore env (JobSearchAI.document_manager self) w)
    as [[[u|e] dm] w'] eqn:Hclear; [|discriminate].
  apply clear_vectorstore_world in Hclear as (-> & Hdir & Hup & Hbg & Hout & Hlog).
  split; [exact Hbg|]. split; [exact Hout|]. split; [exact Hlog|].
  split; [exact Hup|]. split; [reflexivity|].
  intros env2. cbn. unfold DocumentManager.clear_vectorstore. rewrite Hdir, Hup.
  destruct w' as [vd ud bd so cl]. cbn in *. subst vd ud.
  destruct (upload_dir w) as [entries|]; cbn; [|done].
  by rewrite remove_files_no_file.
Qed.

Lemma clear_all_data_spares_and_is_idempotent_witness :
  let self := fst (JobSearchAI.__init__ busy_world) in
  clear_completes sample_env self busy_world
  /\ let '(_, self', w') := JobSearchAI.clear_all_data sample_env self busy_world in
     upload_dir w' = Some [("archive", false)]
     /\ background_dir w' = background_dir busy_world
     /\ JobSearchAI.clear_all_data mounted_env self' w' = (Returned tt, self', w').
Proof.
  intros self.
  assert (Hcompletes : clear_completes sample_env self busy_world)
    by (vm_compute; reflexivity).
  split; [exact Hcompletes|].
  pose proof (clear_all_data_spares_and_is_idempotent sample_env self busy_world
                Hcompletes) as H.
  destruct (JobSearchAI.clear_all_data sample_env self busy_world) as [[r self'] w'].
  destruct H as (Hbg & _ & _ & Hup & _ & Hagain).
  split; [rewrite Hup; reflexivity|]. split; [exact Hbg|]. apply Hagain.
Defined.

Example clear_all_data_busy :
  let '(_, self', w') :=
    JobSearchAI.clear_all_data sample_env (fst (JobSearchAI.__init__ busy_world))
      busy_world in
  upload_dir w' = Some [("archive", false)]
  /\ background_dir w' = Some (Some (Text "Ten years of Python."))
  /\ DocumentManager.get_document_count busy_world = 2
  /\ DocumentManager.get_document_count w' = 0.
Proof. vm_compute. repeat split; reflexivity. Qed.

(** ** Batches that add nothing *)

Lemma setup_qa_chain_fixed (self : JobSearchAI.t) :
  (forall index,
      DocumentManager.vectorstore (JobSearchAI.document_manager self) = Some index ->
      JobSearchAI.qa_chain self = Some (chain_over index)) ->
  JobSearchAI._setup_qa_chain
    (JobSearchAI.set_document_manager (JobSearchAI.document_manager self) self)
  = self.
Proof.
  destruct self as [dm mem qa]. cbn. intros Hchain.
  unfold JobSearchAI._setup_qa_chain, DocumentManager.get_vectorstore. cbn.
  destruct (DocumentManager.vectorstore dm) as [index|]; [|done].
  by rewrite (Hchain index eq_refl).
Qed.

(** X8. In a state a session reaches, an ingestion whose batch yields no chunk
    (no file, only files that fail to load, only empty documents) hands the
    application back as it was, touches nothing durable, and prints the
    error lines of the batch followed by "No documents to process". *)
Theorem add_documents_without_chunks
    (prompts : Prompts) (env : Env) (self : JobSearchAI.t) (file_paths : list string)
    (w : World) :
  JobSearchAI.reachable prompts self w ->
  fst (DocumentManager.process_documents env (JobSearchAI.document_manager self)
         file_paths w) = [] ->
  JobSearchAI.add_documents env self file_paths w
  = (self, prints (load_errors env file_paths ++ ["No documents to process"]) w).
Proof.
  intros Hreach Hnone. rewrite process_documents_spec in Hnone. cbn [fst] in Hnone.
  rewrite add_documents_unfold, Hnone. cbn [DocumentManager.create_vectorstore fst snd].
  rewrite setup_qa_chain_fixed by (by apply (reachable_index_chain prompts _ w)).
  by rewrite prints_app.
Qed.

Lemma add_documents_without_chunks_witness :
  let batch := ["context/uploads/broken.pdf"; "context/uploads/cv.docx"] in
  JobSearchAI.reachable sample_prompts fresh_ai fresh_world
  /\ fst (DocumentManager.process_documents sample_env
            (JobSearchAI.document_manager fresh_ai) batch fresh_world) = []
  /\ JobSearchAI.add_documents sample_env fresh_ai batch fresh_world
     = (fresh_ai,
        prints (load_errors sample_env batch ++ ["No documents to process"]) fresh_world).
Proof.
  assert (Hreach : JobSearchAI.reachable sample_prompts fresh_ai fresh_world).
  { exact (JobSearchAI.reach_init sample_prompts fresh_world). }
  split; [exact Hreach|]. split; [reflexivity|].
  exact (add_documents_without_chunks sample_prompts sample_env fresh_ai
           ["context/uploads/broken.pdf"; "context/uploads/cv.docx"] fresh_world
           Hreach eq_refl).
Defined.

(** ** The chain and the index *)



(** X18. Outside a [clear_all_data] that raises, the engine is a two-state
    machine.  An operation that is not such a clear preserves that the
    engine is ready only when the document manager holds an index.  An
    operation takes the engine from uninitialized to ready only if it is
    [add_documents] and leaves an index behind, and [add_documents] does so
    whenever the batch yields chunks and embedding them works; an operation
    takes it from ready to uninitialized only if it is a [clear_all_data]
    that returns, and such a clear always does. *)
Theorem engine_two_states_unless_clear_raises
    (prompts : Prompts) (env : Env) (o : JobSearchAI.op) (self : JobSearchAI.t)
    (w : World) :
  let self' := fst (JobSearchAI.step prompts env o self w) in
  ((o = JobSearchAI.ClearAllData -> clear_completes env self w) ->
   ready_only_with_index self -> ready_only_with_index self')
  /\ (JobSearchAI.qa_chain self = None -> JobSearchAI.qa_chain self' <> None ->
      exists file_paths,
        o = JobSearchAI.AddDocuments file_paths
        /\ DocumentManager.vectorstore (JobSearchAI.document_manager self') <> None)
  /\ (JobSearchAI.qa_chain self <> None -> JobSearchAI.qa_chain self' = None ->
      o = JobSearchAI.ClearAllData /\ clear_completes env self w)
  /\ (o = JobSearchAI.ClearAllData -> clear_completes env self w ->
      JobSearchAI.qa_chain self' = None
      /\ DocumentManager.vectorstore (JobSearchAI.document_manager self') = None)
  /\ (forall file_paths,
        o = JobSearchAI.AddDocuments file_paths ->
        let chunks :=
          fst (DocumentManager.process_documents env
                 (JobSearchAI.document_manager self) file_paths w) in
        chunks <> [] -> from_documents_error env chunks = None ->
        JobSearchAI.qa_chain self' <> None).
Proof.
  intros self'. subst self'.
  split; [apply step_preserves_ready_only|].
  split; [|split; [|split]].
  - intros Hnone Hready.
    destruct o as [ps|jd s|jd it|q jd|c| | |].
    1: { exists ps. split; [done|]. cbn [JobSearchAI.step] in *.
         rewrite add_documents_chain in Hready.
         destruct (DocumentManager.vectorstore
                     (JobSearchAI.document_manager
                        (fst (JobSearchAI.add_documents env self ps w))));
           [done|]. by rewrite Hnone in Hready. }
    6: { exfalso. apply Hready. rewrite step_clear.
         destruct (clear_all_data_fields env self w) as (_ & Hret & Hraise).
         destruct (is_returned (fst (fst (JobSearchAI.clear_all_data env self w)))).
         - by destruct (Hret eq_refl).
         - destruct (Hraise eq_refl) as [-> _]. exact Hnone. }
    all: exfalso; apply Hready; by query_frame.
  - intros Hready Hnone.
    destruct o as [ps|jd s|jd it|q jd|c| | |].
    1: { exfalso. cbn [JobSearchAI.step] in Hnone.
         rewrite add_documents_chain in Hnone.
         destruct (DocumentManager.vectorstore
                     (JobSearchAI.document_manager
                        (fst (JobSearchAI.add_documents env self ps w))));
           [done|]. by apply Hready. }
    6: { split; [done|]. unfold clear_completes. rewrite step_clear in Hnone.
         destruct (clear_all_data_fields env self w) as (_ & _ & Hraise).
         destruct (is_returned (fst (fst (JobSearchAI.clear_all_data env self w))));
           [done|].
         destruct (Hraise eq_refl) as [Hsame _]. exfalso. apply Hready. congruence. }
    all: exfalso; apply Hready; rewrite <- Hnone; symmetry; by query_frame.
  - intros -> Hcompletes. rewrite step_clear.
    destruct (clear_all_data_fields env self w) as (Hindex & Hret & _).
    split; [|exact Hindex]. by destruct (Hret Hcompletes).
  - intros ps -> chunks Hchunks Hemb. cbn [JobSearchAI.step].
    rewrite add_documents_chain, add_documents_index, create_vectorstore_index.
    subst chunks. revert Hchunks Hemb.
    generalize (fst (DocumentManager.process_documents env
                       (JobSearchAI.document_manager self) ps w)).
    intros [|d ds] Hchunks Hemb; [done|]. by rewrite Hemb.
Qed.

Lemma engine_two_states_unless_clear_raises_witness :
  let first_upload := JobSearchAI.AddDocuments ["context/uploads/cv.txt"] in
  let ready := fst (JobSearchAI.step sample_prompts sample_env first_upload
                      fresh_ai fresh_world) in
  let cleared := fst (JobSearchAI.step sample_prompts sample_env JobSearchAI.ClearAllData
                        (fst talked_state) (snd talked_state)) in
  ready_only_with_index fresh_ai
  /\ JobSearchAI.qa_chain fresh_ai = None
  /\ ready_only_with_index ready
  /\ JobSearchAI.qa_chain ready <> None
  /\ clear_completes sample_env (fst talked_state) (snd talked_state)
  /\ JobSearchAI.qa_chain (fst talked_state) <> None
  /\ JobSearchAI.qa_chain cleared = None
  /\ DocumentManager.vectorstore (JobSearchAI.document_manager cleared) = None.
Proof.
  intros first_upload ready cleared.
  assert (Hfresh : ready_only_with_index fresh_ai).
  { intros Hready. exfalso. apply Hready. reflexivity. }
  assert (Hcompletes : clear_completes sample_env (fst talked_state) (snd talked_state))
    by (vm_compute; reflexivity).
  destruct (engine_two_states_unless_clear_raises sample_prompts sample_env
              (JobSearchAI.AddDocuments ["context/uploads/cv.txt"]) fresh_ai fresh_world)
    as (Hinv & _ & _ & _ & Hready).
  destruct (engine_two_states_unless_clear_raises sample_prompts sample_env
              JobSearchAI.ClearAllData (fst talked_state) (snd talked_state))
    as (_ & _ & _ & Hclear & _).
  split; [exact Hfresh|]. split; [reflexivity|].
  split; [apply Hinv; [discriminate|exact Hfresh]|].
  split.
  { apply (Hready ["context/uploads/cv.txt"] eq_refl).
    - vm_compute. discriminate.
    - reflexivity. }
  split; [exact Hcompletes|]. split; [vm_compute; discriminate|].
  exact (Hclear eq_refl Hcompletes).
Defined.


Lemma ready_state_chain :
  JobSearchAI.qa_chain (fst ready_state)
  = Some (chain_over [DocumentManager.tag_source "context/uploads/cv.txt" sample_doc]).
Proof. vm_compute. reflexivity. Qed.


(** ** What a query does *)

Lemma operations_are_asks prompts env (self : JobSearchAI.t) w jd sections it q :
  JobSearchAI.optimize_resume prompts env self jd sections w
  = JobSearchAI.ask env self (resume_query prompts jd) w
  /\ JobSearchAI.prepare_interview_questions prompts env self jd it w
     = JobSearchAI.ask env self (interview_query prompts jd it) w
  /\ JobSearchAI.draft_application_response prompts env self q jd w
     = JobSearchAI.ask env self (application_query prompts q jd) w.
Proof. by repeat split. Qed.

Lemma sent_facts env c req w :
  same_storage w (sent env c req w)
  /\ completion_log (sent env c req w) = completion_log w ++ [req]
  /\ stdout (sent env c req w) = stdout w ++ chain_output env c req.
Proof.
  unfold sent, chain_output. destruct (JobSearchAI.chain_verbose c).
  - destruct (same_storage_prints (verbose_output env req (completion env req))
                (log_request req w)) as (Hv & Hu & Hb).
    split; [by repeat split|]. split; [by rewrite completion_log_prints|].
    by rewrite stdout_prints.
  - split; [by repeat split|]. split; [done|]. cbn. by rewrite app_nil_r.
Qed.

Lemma personal_context_sent env c req w :
  JobSearchAI._get_personal_context (sent env c req w)
  = JobSearchAI._get_personal_context w.
Proof.
  destruct (sent_facts env c req w) as ((_ & _ & Hbg) & _).
  unfold JobSearchAI._get_personal_context. by rewrite Hbg.
Qed.

Lemma ask_ready env (self : JobSearchAI.t) query w c context :
  JobSearchAI.qa_chain self = Some c ->
  JobSearchAI._get_personal_context w = Returned context ->
  JobSearchAI.ask env self query w
  = match completion env (request_for env c self (question_with context query)) with
    | Returned answer =>
        (Returned answer,
         JobSearchAI.set_memory
           (JobSearchAI.memory self ++ [(question_with context query, answer)]) self,
         sent env c (request_for env c self (question_with context query)) w)
    | Raised e =>
        (Raised e, self,
         sent env c (request_for env c self (question_with context query)) w)
    end.
Proof.
  intros Hc Hctx. unfold JobSearchAI.ask. rewrite Hc, Hctx.
  unfold JobSearchAI.call_chain, sent, request_for, question_with. cbn zeta.
  by destruct (completion env _).
Qed.

Lemma ask_effects env (self : JobSearchAI.t) query w :
  let '(r, self', w') := JobSearchAI.ask env self query w in
  JobSearchAI.document_manager self' = JobSearchAI.document_manager self
  /\ JobSearchAI.qa_chain self' = JobSearchAI.qa_chain self
  /\ same_storage w w'
  /\ ((JobSearchAI.memory self' = JobSearchAI.memory self /\ is_returned r = false)
      \/ (JobSearchAI.memory self' = JobSearchAI.memory self /\ w' = w)
      \/ exists question answer,
           r = Returned answer
           /\ JobSearchAI.memory self' = JobSearchAI.memory self ++ [(question, answer)])
  /\ (w' = w
      \/ exists c req,
           JobSearchAI.qa_chain self = Some c
           /\ r = completion env req
           /\ req_history req = JobSearchAI.memory self
           /\ completion_log w' = completion_log w ++ [req]
           /\ stdout w' = stdout w ++ chain_output env c req).
Proof.
  destruct (JobSearchAI.qa_chain self) as [c|] eqn:Hc.
  - destruct (JobSearchAI._get_personal_context w) as [context|e] eqn:Hctx.
    + rewrite (ask_ready env self query w c context Hc Hctx).
      set (req := request_for env c self (question_with context query)).
      destruct (sent_facts env c req w) as (Hst & Hlog & Hout).
      destruct (completion env req) as [answer|e] eqn:Hans.
      * split; [done|]. split; [done|]. split; [exact Hst|].
        split; [right; right; by eexists _, _|].
        right. exists c, req. by rewrite Hans.
      * split; [done|]. split; [done|]. split; [exact Hst|].
        split; [by left|].
        right. exists c, req. by rewrite Hans.
    + unfold JobSearchAI.ask. rewrite Hc, Hctx.
      split; [done|]. split; [done|]. split; [apply same_storage_refl|].
      split; by left.
  - rewrite ask_uninitialized by done.
    split; [done|]. split; [done|]. split; [apply same_storage_refl|].
    split; [right; by left|by left].
Qed.

(** X10. Each of the three operations leaves the document manager, the chain
    and everything durable as they were.  It calls the chain at most once:
    then one request is sent, carrying the history of before the call, the
    operation ends as the completion call ended, and the printed output
    grows by what the chain prints for the call; otherwise the world is
    left as it was.  The history afterwards is the history of before, or
    that history with one more turn, and then the operation returned the
    answer of that turn. *)
Theorem queries_touch_only_history_and_log
    (prompts : Prompts) (env : Env) (self : JobSearchAI.t) (w : World)
    job_description sections interview_type question result :
  result ∈ [ JobSearchAI.optimize_resume prompts env self job_description sections w;
             JobSearchAI.prepare_interview_questions prompts env self
               job_description interview_type w;
             JobSearchAI.draft_application_response prompts env self
               question job_description w ] ->
  let '(r, self', w') := result in
  JobSearchAI.document_manager self' = JobSearchAI.document_manager self
  /\ JobSearchAI.qa_chain self' = JobSearchAI.qa_chain self
  /\ same_storage w w'
  /\ ((JobSearchAI.memory self' = JobSearchAI.memory self /\ is_returned r = false)
      \/ (JobSearchAI.memory self' = JobSearchAI.memory self /\ w' = w)
      \/ exists asked answer,
           r = Returned answer
           /\ JobSearchAI.memory self' = JobSearchAI.memory self ++ [(asked, answer)])
  /\ (w' = w
      \/ exists c req,
           JobSearchAI.qa_chain self = Some c
           /\ r = completion env req
           /\ req_history req = JobSearchAI.memory self
           /\ completion_log w' = completion_log w ++ [req]
           /\ stdout w' = stdout w ++ chain_output env c req).
Proof.
  intros Hin.
  assert (Hask : exists query, result = JobSearchAI.ask env self query w).
  { repeat (apply elem_of_cons in Hin as [->|Hin]); [eexists; reflexivity..|].
    by apply elem_of_nil in Hin. }
  destruct Hask as [query ->]. apply ask_effects.
Qed.

Lemma queries_touch_only_history_and_log_witness :
  let result :=
    JobSearchAI.prepare_interview_questions sample_prompts sample_env (fst ready_state)
      "Backend engineer" "technical" (snd ready_state) in
  result ∈ [ JobSearchAI.optimize_resume sample_prompts sample_env (fst ready_state)
               "Backend engineer" None (snd ready_state);
             result;
             JobSearchAI.draft_application_response sample_prompts sample_env
               (fst ready_state) "Why us?" "Backend engineer" (snd ready_state) ]
  /\ stdout (snd result)
     = stdout (snd ready_state) ++ ["> Entering new chain..."; "> Finished chain."]
  /\ let '(r, self', w') := result in
     JobSearchAI.document_manager self' = JobSearchAI.document_manager (fst ready_state)
     /\ JobSearchAI.qa_chain self' = JobSearchAI.qa_chain (fst ready_state)
     /\ same_storage (snd ready_state) w'.
Proof.
  assert (Hin :
    JobSearchAI.prepare_interview_questions sample_prompts sample_env (fst ready_state)
      "Backend engineer" "technical" (snd ready_state)
    ∈ [ JobSearchAI.optimize_resume sample_prompts sample_env (fst ready_state)
          "Backend engineer" None (snd ready_state);
        JobSearchAI.prepare_interview_questions sample_prompts sample_env (fst ready_state)
          "Backend engineer" "technical" (snd ready_state);
        JobSearchAI.draft_application_response sample_prompts sample_env
          (fst ready_state) "Why us?" "Backend engineer" (snd ready_state) ]).
  { apply list_elem_of_further, list_elem_of_here. }
  split; [exact Hin|]. split; [vm_compute; reflexivity|].
  pose proof (queries_touch_only_history_and_log sample_prompts sample_env
                (fst ready_state) (snd ready_state) "Backend engineer" None "technical"
                "Why us?" _ Hin) as H.
  destruct (JobSearchAI.prepare_interview_questions sample_prompts sample_env
              (fst ready_state) "Backend engineer" "technical" (snd ready_state))
    as [[r self'] w'].
  destruct H as (Hdm & Hqa & Hst & _).
  split; [exact Hdm|]. split; [exact Hqa|exact Hst].
Defined.

(** X11. With the engine ready and the personal context readable, an operation
    sends one request: the question is the query of the operation, after
    the context block and a space when the block is not empty; the chunks
    are what the index of the chain returns for that question and its [k];
    the history is the history so far.  When the service answers, the
    answer is returned, the pair (question, answer) is appended to the
    history, and the world is the one of before with the request on record
    and what the chain printed.  Two calls in a row therefore leave two
    more turns, and the second request carries the first of them. *)
Theorem answered_query_records_turn
    (prompts : Prompts) (env : Env) (self : JobSearchAI.t) (w : World)
    (c : JobSearchAI.chain) (context : string) :
  JobSearchAI.qa_chain self = Some c ->
  JobSearchAI._get_personal_context w = Returned context ->
  (forall job_description sections answer,
      let asked := question_with context (resume_query prompts job_description) in
      completion env (request_for env c self asked) = Returned answer ->
      JobSearchAI.optimize_resume prompts env self job_description sections w
      = (Returned answer,
         JobSearchAI.set_memory (JobSearchAI.memory self ++ [(asked, answer)]) self,
         sent env c (request_for env c self asked) w))
  /\ (forall job_description interview_type answer,
        let asked :=
          question_with context (interview_query prompts job_description interview_type) in
        completion env (request_for env c self asked) = Returned answer ->
        JobSearchAI.prepare_interview_questions prompts env self
          job_description interview_type w
        = (Returned answer,
           JobSearchAI.set_memory (JobSearchAI.memory self ++ [(asked, answer)]) self,
           sent env c (request_for env c self asked) w))
  /\ (forall question job_description answer,
        let asked :=
          question_with context (application_query prompts question job_description) in
        completion env (request_for env c self asked) = Returned answer ->
        JobSearchAI.draft_application_response prompts env self question job_description w
        = (Returned answer,
           JobSearchAI.set_memory (JobSearchAI.memory self ++ [(asked, answer)]) self,
           sent env c (request_for env c self asked) w))
  /\ (forall env2 jd1 jd2 sections answer1 answer2,
        let asked1 := question_with context (resume_query prompts jd1) in
        let asked2 := question_with context (resume_query prompts jd2) in
        let self1 :=
          JobSearchAI.set_memory (JobSearchAI.memory self ++ [(asked1, answer1)]) self in
        completion env (request_for env c self asked1) = Returned answer1 ->
        completion env2 (request_for env2 c self1 asked2) = Returned answer2 ->
        let '(_, self1', w1) :=
          JobSearchAI.optimize_resume prompts env self jd1 sections w in
        let '(_, self2, w2) :=
          JobSearchAI.optimize_resume prompts env2 self1' jd2 sections w1 in
        JobSearchAI.memory self2
        = JobSearchAI.memory self ++ [(asked1, answer1); (asked2, answer2)]
        /\ map req_history (completion_log w2)
           = map req_history (completion_log w)
             ++ [JobSearchAI.memory self;
                 JobSearchAI.memory self ++ [(asked1, answer1)]]).
Proof.
  intros Hc Hctx.
  assert (Hask : forall e s query answer,
    JobSearchAI.qa_chain s = Some c ->
    completion e (request_for e c s (question_with context query)) = Returned answer ->
    JobSearchAI.ask e s query w
    = (Returned answer,
       JobSearchAI.set_memory
         (JobSearchAI.memory s ++ [(question_with context query, answer)]) s,
       sent e c (request_for e c s (question_with context query)) w)).
  { intros e s query answer Hs Hans. by rewrite (ask_ready e s query w c context), Hans. }
  split; [|split; [|split]].
  - intros jd sections answer asked Hans. by apply Hask.
  - intros jd it answer asked Hans. by apply Hask.
  - intros q jd answer asked Hans. by apply Hask.
  - intros env2 jd1 jd2 sections a1 a2 asked1 asked2 self1 Hans1 Hans2.
    change (JobSearchAI.optimize_resume prompts env self jd1 sections w)
      with (JobSearchAI.ask env self (resume_query prompts jd1) w).
    rewrite (Hask env self _ a1 Hc Hans1). fold asked1 self1.
    change (JobSearchAI.optimize_resume prompts env2 self1 jd2 sections
              (sent env c (request_for env c self asked1) w))
      with (JobSearchAI.ask env2 self1 (resume_query prompts jd2)
              (sent env c (request_for env c self asked1) w)).
    rewrite (ask_ready env2 self1 _ _ c context)
      by (done || by rewrite personal_context_sent).
    fold asked2. rewrite Hans2. cbn [JobSearchAI.memory JobSearchAI.set_memory].
    destruct (sent_facts env c (request_for env c self asked1) w) as (_ & Hlog1 & _).
    destruct (sent_facts env2 c (request_for env2 c self1 asked2)
                (sent env c (request_for env c self asked1) w)) as (_ & Hlog2 & _).
    split; [subst self1; cbn; by rewrite <- app_assoc|].
    rewrite Hlog2, Hlog1, <- !app_assoc, !map_app. by cbn.
Qed.

Lemma answered_query_records_turn_witness :
  let c := chain_over [DocumentManager.tag_source "context/uploads/cv.txt" sample_doc] in
  let asked := question_with EmptyString (resume_query sample_prompts "Backend engineer") in
  JobSearchAI.qa_chain (fst ready_state) = Some c
  /\ JobSearchAI._get_personal_context (snd ready_state) = Returned EmptyString
  /\ completion sample_env (request_for sample_env c (fst ready_state) asked)
     = Returned "Lead with the Python projects."
  /\ JobSearchAI.optimize_resume sample_prompts sample_env (fst ready_state)
       "Backend engineer" None (snd ready_state)
     = (Returned "Lead with the Python projects.",
        JobSearchAI.set_memory
          (JobSearchAI.memory (fst ready_state)
           ++ [(asked, "Lead with the Python projects.")]) (fst ready_state),
        sent sample_env c (request_for sample_env c (fst ready_state) asked) (snd ready_state)).
Proof.
  assert (Hctx : JobSearchAI._get_personal_context (snd ready_state) = Returned EmptyString).
  { vm_compute. reflexivity. }
  split; [exact ready_state_chain|]. split; [exact Hctx|]. split; [reflexivity|].
  destruct (answered_query_records_turn sample_prompts sample_env (fst ready_state)
              (snd ready_state) _ EmptyString ready_state_chain Hctx) as [Hopt _].
  exact (Hopt "Backend engineer" None "Lead with the Python projects." eq_refl).
Defined.

(** ** The personal context in a query *)

(** X12. A context file that cannot be decoded: [get_personal_context] swallows
    the error and returns the empty string, while with the engine ready each
    of the three operations raises the decoding error to its caller before
    anything is sent, leaving the application and the world as they were. *)
Theorem undecodable_context_blocks_queries
    (prompts : Prompts) (env : Env) (self : JobSearchAI.t) (w : World)
    (c : JobSearchAI.chain) :
  JobSearchAI.qa_chain self = Some c ->
  background_dir w = Some (Some Undecodable) ->
  fst (JobSearchAI.get_personal_context w) = EmptyString
  /\ forall job_description sections interview_type question result,
       result ∈ [ JobSearchAI.optimize_resume prompts env self job_description sections w;
                  JobSearchAI.prepare_interview_questions prompts env self
                    job_description interview_type w;
                  JobSearchAI.draft_application_response prompts env self
                    question job_description w ] ->
       exists e, result = (Raised e, self, w).
Proof.
  intros Hc Hbg. split.
  - unfold JobSearchAI.get_personal_context, DocumentManager.load_personal_context.
    by rewrite Hbg.
  - intros jd sections it q result Hin.
    assert (Hask : exists query, result = JobSearchAI.ask env self query w).
    { repeat (apply elem_of_cons in Hin as [->|Hin]); [eexists; reflexivity..|].
      by apply elem_of_nil in Hin. }
    destruct Hask as [query ->].
    unfold JobSearchAI.ask, JobSearchAI._get_personal_context. rewrite Hc, Hbg.
    by eexists.
Qed.

Lemma garbled_world_background : background_dir garbled_world = Some (Some Undecodable).
Proof. reflexivity. Qed.

Lemma undecodable_context_blocks_queries_witness :
  let c := chain_over [DocumentManager.tag_source "context/uploads/cv.txt" sample_doc] in
  JobSearchAI.qa_chain (fst ready_state) = Some c
  /\ background_dir garbled_world = Some (Some Undecodable)
  /\ fst (JobSearchAI.get_personal_context garbled_world) = EmptyString
  /\ exists e,
       JobSearchAI.optimize_resume sample_prompts sample_env (fst ready_state)
         "Backend engineer" None garbled_world
       = (Raised e, fst ready_state, garbled_world).
Proof.
  split; [exact ready_state_chain|]. split; [exact garbled_world_background|].
  destruct (undecodable_context_blocks_queries sample_prompts sample_env (fst ready_state)
              garbled_world _ ready_state_chain garbled_world_background) as [Hget Hops].
  split; [exact Hget|].
  exact (Hops "Backend engineer" None "general" "Why us?" _ (list_elem_of_here _ _)).
Defined.

Lemma string_append_assoc (s1 s2 s3 : string) :
  (s1 +:+ s2) +:+ s3 = s1 +:+ (s2 +:+ s3).
Proof.
  induction s1 as [|a s1 IH]; [done|].
  change (String a ((s1 +:+ s2) +:+ s3) = String a (s1 +:+ (s2 +:+ s3))).
  by rewrite IH.
Qed.

Lemma question_with_block (context query : string) :
  question_with (personal_block context) query
  = personal_block context +:+ " " +:+ query.
Proof. reflexivity. Qed.

Example strip_no_break_space :
  Py.strip (String (ascii_of_nat 160) (String "x" (String (ascii_of_nat 133) EmptyString)))
  = "x".
Proof. reflexivity. Qed.

(** X13. A saved context is what the next query carries.  After
    [save_personal_context content] returned [True], a ready engine sends,
    for [optimize_resume], a request whose question is the query of the
    operation, preceded, when the content is not blank, by two line
    breaks, "Personal Context: ", the content as read back and stripped, a
    line break and a space; a content of white space only leaves the query
    bare.  The world afterwards is the world of the save with that request
    on record and what the chain printed. *)
Theorem saved_context_reaches_next_query
    (prompts : Prompts) (env : Env) (self : JobSearchAI.t) (w w1 : World)
    (c : JobSearchAI.chain) (content : string) :
  DocumentManager.save_personal_context content w = (true, w1) ->
  JobSearchAI.qa_chain self = Some c ->
  let stripped := Py.strip (Py.universal_newlines content) in
  forall job_description sections,
    let query := resume_query prompts job_description in
    let asked :=
      if String.eqb stripped EmptyString then query
      else Py.nl +:+ Py.nl +:+ "Personal Context: " +:+ stripped +:+ Py.nl
           +:+ " " +:+ query in
    let '(r, _, w') :=
      JobSearchAI.optimize_resume prompts env self job_description sections w1 in
    r = completion env (request_for env c self asked)
    /\ w' = sent env c (request_for env c self asked) w1.
Proof.
  intros Hsave Hc stripped jd sections query asked.
  apply save_personal_context_true in Hsave as (Hfile & _).
  change (JobSearchAI.optimize_resume prompts env self jd sections w1)
    with (JobSearchAI.ask env self query w1).
  assert (Hctx : JobSearchAI._get_personal_context w1
                 = Returned (if String.eqb stripped EmptyString then EmptyString
                             else personal_block stripped)).
  { unfold JobSearchAI._get_personal_context. by rewrite Hfile. }
  rewrite (ask_ready env self query w1 c _ Hc Hctx).
  assert (Hasked : question_with
                     (if String.eqb stripped EmptyString then EmptyString
                      else personal_block stripped) query = asked).
  { subst asked. destruct (String.eqb stripped EmptyString); [done|].
    rewrite question_with_block. unfold personal_block.
    by rewrite !string_append_assoc. }
  rewrite Hasked.
  by destruct (completion env (request_for env c self asked)).
Qed.

Lemma saved_context_reaches_next_query_witness :
  let c := chain_over [DocumentManager.tag_source "context/uploads/cv.txt" sample_doc] in
  let content := String (ascii_of_nat 160) "Ten years of Python. " in
  let w1 := snd (DocumentManager.save_personal_context content (snd ready_state)) in
  let asked :=
    Py.nl +:+ Py.nl +:+ "Personal Context: " +:+ "Ten years of Python."
    +:+ Py.nl +:+ " " +:+ resume_query sample_prompts "Backend engineer" in
  DocumentManager.save_personal_context content (snd ready_state) = (true, w1)
  /\ JobSearchAI.qa_chain (fst ready_state) = Some c
  /\ let '(r, _, w') :=
       JobSearchAI.optimize_resume sample_prompts sample_env (fst ready_state)
         "Backend engineer" None w1 in
     r = completion sample_env (request_for sample_env c (fst ready_state) asked)
     /\ w' = sent sample_env c (request_for sample_env c (fst ready_state) asked) w1.
Proof.
  assert (Hsave :
    DocumentManager.save_personal_context
      (String (ascii_of_nat 160) "Ten years of Python. ") (snd ready_state)
    = (true, snd (DocumentManager.save_personal_context
                    (String (ascii_of_nat 160) "Ten years of Python. ")
                    (snd ready_state)))).
  { vm_compute. reflexivity. }
  split; [exact Hsave|]. split; [exact ready_state_chain|].
  exact (saved_context_reaches_next_query sample_prompts sample_env (fst ready_state)
           (snd ready_state) _ _ (String (ascii_of_nat 160) "Ten years of Python. ")
           Hsave ready_state_chain "Backend engineer" None).
Defined.

(** ** Inputs without effect *)

(** X14. [optimize_resume] never looks at [sections]: whatever is passed, the
    result, the application and the world are the same.  And
    [draft_application_response] treats a job description of white space
    only, the no-break space and the next-line character included, as no
    job description at all. *)
Theorem inputs_without_effect
    (prompts : Prompts) (env : Env) (self : JobSearchAI.t) (w : World) :
  (forall job_description sections1 sections2,
      JobSearchAI.optimize_resume prompts env self job_description sections1 w
      = JobSearchAI.optimize_resume prompts env self job_description sections2 w)
  /\ (forall question job_description,
        Py.strip job_description = EmptyString ->
        JobSearchAI.draft_application_response prompts env self question job_description w
        = JobSearchAI.draft_application_response prompts env self question EmptyString w).
Proof.
  split; [done|].
  intros q jd Hblank. unfold JobSearchAI.draft_application_response.
  by rewrite Hblank.
Qed.

Lemma inputs_without_effect_witness :
  let blank :=
    String " " (String (ascii_of_nat 160) (String (ascii_of_nat 133) EmptyString)) in
  Py.strip blank = EmptyString
  /\ JobSearchAI.draft_application_response sample_prompts sample_env (fst ready_state)
       "Why us?" blank (snd ready_state)
     = JobSearchAI.draft_application_response sample_prompts sample_env (fst ready_state)
         "Why us?" EmptyString (snd ready_state).
Proof.
  split; [reflexivity|].
  destruct (inputs_without_effect sample_prompts sample_env (fst ready_state)
              (snd ready_state)) as [_ Hblank].
  exact (Hblank "Why us?"
           (String " " (String (ascii_of_nat 160) (String (ascii_of_nat 133) EmptyString)))
           eq_refl).
Defined.

(** ** Where a chunk comes from *)

(** X15. Every chunk [process_documents] returns carries, under "source_file",
    the base name of a file of the batch, and that file loaded. *)
Theorem chunks_carry_their_source
    (env : Env) (self : DocumentManager.t) (file_paths : list string) (w : World)
    (d : Document) :
  d ∈ fst (DocumentManager.process_documents env self file_paths w) ->
  exists p,
    p ∈ file_paths
    /\ is_returned (DocumentManager.load_document env p) = true
    /\ metadata d !! "source_file" = Some (Py.basename p).
Proof.
  rewrite process_documents_spec. cbn [fst].
  unfold split_documents, loaded.
  rewrite list_elem_of_In, in_flat_map. intros (doc & Hdoc & Hd).
  apply in_flat_map in Hdoc as (p & Hp & Hdoc).
  apply in_map_iff in Hd as (chunk & <- & _). cbn [metadata].
  exists p. split; [by apply list_elem_of_In|].
  destruct (DocumentManager.load_document env p) as [docs|e]; [|done].
  split; [done|].
  apply in_map_iff in Hdoc as (x & <- & _).
  unfold DocumentManager.tag_source. cbn [metadata]. apply lookup_insert_eq.
Qed.

Lemma chunks_carry_their_source_witness :
  let batch := ["context/uploads/broken.pdf"; "context/uploads/cv.txt"] in
  let self := fst (DocumentManager.__init__ fresh_world) in
  let d := DocumentManager.tag_source "context/uploads/cv.txt" sample_doc in
  d ∈ fst (DocumentManager.process_documents sample_env self batch fresh_world)
  /\ exists p,
       p ∈ batch
       /\ is_returned (DocumentManager.load_document sample_env p) = true
       /\ metadata d !! "source_file" = Some (Py.basename p).
Proof.
  assert (Hin :
    DocumentManager.tag_source "context/uploads/cv.txt" sample_doc
    ∈ fst (DocumentManager.process_documents sample_env
             (fst (DocumentManager.__init__ fresh_world))
             ["context/uploads/broken.pdf"; "context/uploads/cv.txt"] fresh_world)).
  { vm_compute. apply list_elem_of_here. }
  split; [exact Hin|].
  exact (chunks_carry_their_source sample_env _ _ fresh_world _ Hin).
Defined.

(** ** The path of an upload *)

Lemma rfind_from_spec (c : ascii) (s : string) :
  (Py.has_char c s = true -> (0 <= Py.rfind_from c s 0)%Z)
  /\ forall i, (0 <= i)%Z ->
       Py.rfind_from c s i
       = if Py.has_char c s then (i + Py.rfind_from c s 0)%Z else (-1)%Z.
Proof.
  induction s as [|a s [IHpos IH]]; [split; [done|by intros]|].
  assert (Hstep : forall i, (0 <= i)%Z ->
    Py.rfind_from c (String a s) i
    = if Py.has_char c s then (i + 1 + Py.rfind_from c s 0)%Z
      else if Ascii.eqb a c then i else (-1)%Z).
  { intros i Hi. cbn [Py.rfind_from]. rewrite (IH (i + 1)%Z) by lia.
    destruct (Py.has_char c s) eqn:Hs; [|done].
    specialize (IHpos eq_refl).
    destruct (0 <=? i + 1 + Py.rfind_from c s 0)%Z eqn:Hle; [done|].
    apply Z.leb_gt in Hle. lia. }
  split.
  - intros Hhas. rewrite Hstep by lia. cbn [Py.has_char] in Hhas.
    destruct (Py.has_char c s) eqn:Hs.
    + specialize (IHpos eq_refl). lia.
    + rewrite orb_false_r in Hhas. rewrite Hhas. lia.
  - intros i Hi. rewrite Hstep by lia. rewrite (Hstep 0%Z) by lia.
    cbn [Py.has_char].
    destruct (Py.has_char c s) eqn:Hs; [rewrite orb_true_r; lia|].
    rewrite orb_false_r. destruct (Ascii.eqb a c); lia.
Qed.

Lemma rfind_from_app (c : ascii) (s1 s2 : string) (i : Z) :
  (0 <= i)%Z ->
  Py.rfind_from c (s1 +:+ s2) i
  = (if (0 <=? Py.rfind_from c s2 (i + Z.of_nat (String.length s1)))%Z
     then Py.rfind_from c s2 (i + Z.of_nat (String.length s1))
     else Py.rfind_from c s1 i).
Proof.
  revert i. induction s1 as [|a s1 IH]; intros i Hi.
  - change (EmptyString +:+ s2) with s2.
    cbn [String.length Py.rfind_from]. rewrite Z.add_0_r.
    destruct (rfind_from_spec c s2) as [Hpos Hshift].
    rewrite (Hshift i Hi).
    destruct (Py.has_char c s2); [|reflexivity].
    specialize (Hpos eq_refl).
    by replace (0 <=? i + Py.rfind_from c s2 0)%Z with true
      by (symmetry; apply Z.leb_le; lia).
  - change (String a s1 +:+ s2) with (String a (s1 +:+ s2)).
    cbn [Py.rfind_from String.length]. rewrite IH by lia.
    replace (i + 1 + Z.of_nat (String.length s1))%Z
      with (i + Z.of_nat (S (String.length s1)))%Z by lia.
    destruct (0 <=? Py.rfind_from c s2 (i + Z.of_nat (S (String.length s1))))%Z
      eqn:Hle; [by rewrite Hle|done].
Qed.

Lemma string_length_app (s1 s2 : string) :
  String.length (s1 +:+ s2) = String.length s1 + String.length s2.
Proof.
  induction s1 as [|a s1 IH]; [done|].
  change (String a s1 +:+ s2) with (String a (s1 +:+ s2)).
  cbn [String.length]. by rewrite IH.
Qed.

Lemma substring_app_shift (pre s : string) (k m : nat) :
  String.substring (String.length pre + k) m (pre +:+ s) = String.substring k m s.
Proof.
  induction pre as [|a pre IH]; [done|].
  change (String a pre +:+ s) with (String a (pre +:+ s)). exact IH.
Qed.

Lemma substring_whole (s : string) : String.substring 0 (String.length s) s = s.
Proof. induction s as [|a s IH]; [done|]. cbn. by rewrite IH. Qed.

Lemma slice_from_app_shift (pre s : string) (i : Z) :
  (0 <= i)%Z ->
  Py.slice_from (pre +:+ s) (Z.of_nat (String.length pre) + i)
  = Py.slice_from s i.
Proof.
  intros Hi. unfold Py.slice_from.
  replace (Z.to_nat (Z.of_nat (String.length pre) + i))
    with (String.length pre + Z.to_nat i) by lia.
  rewrite substring_app_shift, string_length_app. f_equal. lia.
Qed.

Lemma splitext_loop_app_shift (pre s : string) (d k : Z) (steps : nat) :
  (0 <= d)%Z -> (0 <= k)%Z ->
  snd <$> Py.splitext_loop (pre +:+ s) (Z.of_nat (String.length pre) + d)
            (Z.of_nat (String.length pre) + k) steps
  = snd <$> Py.splitext_loop s d k steps.
Proof.
  intros Hd. revert k. induction steps as [|steps IH]; intros k Hk; [done|].
  cbn [Py.splitext_loop].
  replace (Z.to_nat (Z.of_nat (String.length pre) + k))
    with (String.length pre + Z.to_nat k) by lia.
  rewrite substring_app_shift.
  destruct (negb _).
  - cbn. by rewrite slice_from_app_shift.
  - replace (Z.of_nat (String.length pre) + k + 1)%Z
      with (Z.of_nat (String.length pre) + (k + 1))%Z by lia.
    apply IH. lia.
Qed.

Lemma uploaded_file_path_plain (name : string) :
  Py.has_char "/" name = false ->
  uploaded_file_path name = "context/uploads/" +:+ name.
Proof.
  intros Hplain. unfold uploaded_file_path, posix_join.
  destruct name as [|a name]; [reflexivity|].
  cbn [Py.has_char] in Hplain. apply orb_false_elim in Hplain as [Ha _].
  rewrite Ha. reflexivity.
Qed.

Lemma upload_dir_prefix_facts :
  String.length "context/uploads/" = 16
  /\ Py.rfind_from "/" "context/uploads/" 0 = 15%Z
  /\ Py.rfind_from "." "context/uploads/" 0 = (-1)%Z.
Proof. by vm_compute. Qed.

(** X16. [save_uploaded_file] and what follows from the path it returns.  For an
    upload whose name holds no slash, the path is the upload directory, a
    slash and the name; its base name is the name, and its extension is the
    extension of the name.  So [load_document] picks the loader, or refuses
    the type, by the name of the upload, and every chunk of the file is
    tagged with that name. *)
Theorem upload_keeps_name_and_type (name : string) :
  Py.has_char "/" name = false ->
  uploaded_file_path name = "context/uploads/" +:+ name
  /\ Py.basename (uploaded_file_path name) = name
  /\ snd (Py.splitext (uploaded_file_path name)) = snd (Py.splitext name)
  /\ DocumentManager.select_loader (uploaded_file_path name)
     = DocumentManager.select_loader name
  /\ forall doc,
       metadata (DocumentManager.tag_source (uploaded_file_path name) doc) !! "source_file"
       = Some name.
Proof.
  intros Hplain. destruct upload_dir_prefix_facts as (Hlen & Hsep & Hdot).
  rewrite uploaded_file_path_plain by done.
  set (pre := "context/uploads/") in *.
  assert (Hname_sep : forall i, (0 <= i)%Z -> Py.rfind_from "/" name i = (-1)%Z).
  { intros i Hi. destruct (rfind_from_spec "/" name) as [_ H].
    by rewrite H, Hplain. }
  assert (Hrsep : Py.rfind "/" (pre +:+ name) = 15%Z).
  { unfold Py.rfind. rewrite rfind_from_app, Hname_sep by lia. exact Hsep. }
  assert (Hbase : Py.basename (pre +:+ name) = name).
  { unfold Py.basename. rewrite Hrsep.
    change (15 + 1)%Z with (Z.of_nat (String.length pre) + 0)%Z.
    rewrite slice_from_app_shift by lia.
    unfold Py.slice_from. cbn [Z.to_nat]. rewrite Nat.sub_0_r. apply substring_whole. }
  destruct (rfind_from_spec "." name) as [Hpos Hshift].
  assert (Hrdot : Py.rfind "." (pre +:+ name)
                  = if Py.has_char "." name
                    then (16 + Py.rfind_from "." name 0)%Z else (-1)%Z).
  { unfold Py.rfind. rewrite rfind_from_app by lia. rewrite Hlen, Hdot.
    rewrite (Hshift (0 + Z.of_nat 16)%Z) by lia.
    destruct (Py.has_char "." name); [|reflexivity].
    specialize (Hpos eq_refl).
    replace (0 <=? 0 + Z.of_nat 16 + Py.rfind_from "." name 0)%Z with true
      by (symmetry; apply Z.leb_le; lia).
    lia. }
  assert (Hext : snd (Py.splitext (pre +:+ name)) = snd (Py.splitext name)).
  { unfold Py.splitext. rewrite Hrsep, Hrdot.
    unfold Py.rfind. rewrite (Hname_sep 0%Z) by lia.
    destruct (Py.has_char "." name) eqn:Hhas.
    - specialize (Hpos eq_refl). set (d := Py.rfind_from "." name 0) in *.
      replace (15 <? 16 + d)%Z with true by (symmetry; apply Z.ltb_lt; lia).
      replace (-1 <? d)%Z with true by (symmetry; apply Z.ltb_lt; lia).
      replace (16 + d - (15 + 1))%Z with d by lia.
      replace (d - (-1 + 1))%Z with d by lia.
      pose proof (splitext_loop_app_shift pre name d 0 (Z.to_nat d) Hpos ltac:(lia))
        as Hloop.
      rewrite Hlen in Hloop.
      change (Z.of_nat 16 + d)%Z with (16 + d)%Z in Hloop.
      change (Z.of_nat 16 + 0)%Z with (15 + 1)%Z in Hloop.
      change (-1 + 1)%Z with 0%Z.
      destruct (Py.splitext_loop (pre +:+ name) (16 + d) (15 + 1) (Z.to_nat d)) as [r|],
               (Py.splitext_loop name d 0 (Z.to_nat d)) as [r'|];
        cbn in Hloop; try done.
      by injection Hloop.
    - rewrite (Hshift 0%Z) by lia. rewrite ?Hhas. reflexivity. }
  split; [done|]. split; [exact Hbase|]. split; [exact Hext|].
  split.
  - unfold DocumentManager.select_loader. by rewrite Hext.
  - intros doc. unfold DocumentManager.tag_source. cbn [metadata].
    rewrite Hbase. apply lookup_insert_eq.
Qed.

Lemma upload_keeps_name_and_type_witness :
  Py.has_char "/" "CV.final.PDF" = false
  /\ uploaded_file_path "CV.final.PDF" = "context/uploads/CV.final.PDF"
  /\ Py.basename (uploaded_file_path "CV.final.PDF") = "CV.final.PDF"
  /\ snd (Py.splitext (uploaded_file_path "CV.final.PDF")) = ".PDF"
  /\ DocumentManager.select_loader (uploaded_file_path "CV.final.PDF")
     = Returned PyPDFLoader.
Proof.
  split; [reflexivity|].
  destruct (upload_keeps_name_and_type "CV.final.PDF" eq_refl)
    as (Hpath & Hbase & Hext & Hsel & _).
  split; [exact Hpath|]. split; [exact Hbase|].
  split; [exact Hext|exact Hsel].
Defined.

Example uploaded_file_path_absolute :
  uploaded_file_path "/etc/passwd" = "/etc/passwd".
Proof. reflexivity. Qed.

(** ** One batch or two *)

Lemma add_documents_splitter env (self : JobSearchAI.t) file_paths w :
  DocumentManager.text_splitter
    (JobSearchAI.document_manager (fst (JobSearchAI.add_documents env self file_paths w)))
  = DocumentManager.text_splitter (JobSearchAI.document_manager self).
Proof.
  rewrite add_documents_unfold. cbn [fst].
  unfold JobSearchAI._setup_qa_chain, DocumentManager.get_vectorstore.
  match goal with |- context [DocumentManager.create_vectorstore ?e ?d ?c ?x] =>
    destruct (create_vectorstore_frame e d c x) as (_ & _ & _ & Hsp);
    destruct (DocumentManager.create_vectorstore e d c x) as [dm' w']
  end.
  cbn [fst] in *. cbn. by destruct (DocumentManager.vectorstore dm').
Qed.

Lemma add_documents_index_embedded env (self : JobSearchAI.t) file_paths w :
  (forall documents, from_documents_error env documents = None) ->
  DocumentManager.vectorstore
    (JobSearchAI.document_manager (fst (JobSearchAI.add_documents env self file_paths w)))
  = match split_documents
            (DocumentManager.text_splitter (JobSearchAI.document_manager self))
            (loaded env file_paths) with
    | [] => DocumentManager.vectorstore (JobSearchAI.document_manager self)
    | c :: cs =>
        Some (default [] (DocumentManager.vectorstore (JobSearchAI.document_manager self))
              ++ c :: cs)
    end.
Proof.
  intros Hemb. rewrite add_documents_index, create_vectorstore_index.
  rewrite process_documents_spec. cbn [fst].
  destruct (split_documents _ _) as [|c cs]; [done|]. rewrite Hemb.
  by destruct (DocumentManager.vectorstore (JobSearchAI.document_manager self)).
Qed.

(** X17. With an embedding service that works, ingesting a batch in one call
    or in two, its first part and then the rest, leaves the same index:
    the chunks of the files in the order of the batch, after what the index
    held. *)
Theorem one_batch_or_two
    (env : Env) (self : JobSearchAI.t) (first rest : list string) (w : World) :
  (forall documents, from_documents_error env documents = None) ->
  let '(self1, w1) := JobSearchAI.add_documents env self first w in
  DocumentManager.vectorstore
    (JobSearchAI.document_manager
       (fst (JobSearchAI.add_documents env self (first ++ rest) w)))
  = DocumentManager.vectorstore
      (JobSearchAI.document_manager (fst (JobSearchAI.add_documents env self1 rest w1))).
Proof.
  intros Hemb.
  pose proof (add_documents_index_embedded env self first w Hemb) as H1.
  pose proof (add_documents_splitter env self first w) as Hsp.
  destruct (JobSearchAI.add_documents env self first w) as [self1 w1]. cbn [fst] in *.
  rewrite !add_documents_index_embedded by done.
  rewrite Hsp, H1, loaded_app, split_documents_app.
  set (sp := DocumentManager.text_splitter (JobSearchAI.document_manager self)).
  destruct (split_documents sp (loaded env first)) as [|c cs];
    destruct (split_documents sp (loaded env rest)) as [|d ds];
    destruct (DocumentManager.vectorstore (JobSearchAI.document_manager self)) as [old|];
    cbn; rewrite ?app_nil_r, <- ?app_assoc; done.
Qed.

Lemma one_batch_or_two_witness :
  (forall documents, from_documents_error sample_env documents = None)
  /\ let '(self1, w1) :=
       JobSearchAI.add_documents sample_env fresh_ai ["context/uploads/cv.txt"]
         fresh_world in
     DocumentManager.vectorstore
       (JobSearchAI.document_manager
          (fst (JobSearchAI.add_documents sample_env fresh_ai
                  (["context/uploads/cv.txt"] ++ ["context/uploads/notes.md"]) fresh_world)))
     = DocumentManager.vectorstore
         (JobSearchAI.document_manager
            (fst (JobSearchAI.add_documents sample_env self1 ["context/uploads/notes.md"] w1))).
Proof.
  assert (Hemb : forall documents, from_documents_error sample_env documents = None).
  { intros documents. reflexivity. }
  split; [exact Hemb|].
  exact (one_batch_or_two sample_env fresh_ai ["context/uploads/cv.txt"]
           ["context/uploads/notes.md"] fresh_world Hemb).
Defined.
